(** * governance/data_adapter.py: the MongoDB data adapter

    A shallow embedding of [MongoDBAdapter] (connection lifecycle, bulk
    writes, field masking, schema inference) and of the [get_adapter]
    factory, followed by the properties of the data-access layer that can be
    settled on it.

    Python values are an inductive type, dictionaries are finite maps,
    exceptions are an explicit outcome, and the pymongo driver is an
    interface ([Pymongo]) with an in-memory instance ([MemMongo]) on which
    the adapter can be run. *)

From Stdlib Require Import ZArith Floats Ascii String.
From stdpp Require Import gmap strings list fin_maps.

Set Warnings "-register-all,-clear-no-such-hyp".
Local Open Scope string_scope.
Local Open Scope list_scope.
Local Open Scope Z_scope.

(** ** Python values *)

(** The values a BSON document can hold.  [VBool] and [VInt] are separate
    constructors: in Python [bool] is a subclass of [int], which is why the
    source tests [isinstance(value, bool)] before [isinstance(value, int)]. *)
Inductive value : Type :=
| VNone
| VBool (b : bool)
| VInt (n : Z)
| VFloat (f : float)
| VStr (s : string)
| VDict (d : gmap string value)
| VList (l : list value)
| VObjectId (oid : N)
| VDatetime (millis : Z).

Abbreviation document := (gmap string value).

(** Truth value of a Python object, as tested by [if x:] and [x and y]. *)
Definition truthy (v : value) : bool :=
  match v with
  | VNone => false
  | VBool b => b
  | VInt n => negb (n =? 0)
  | VFloat f => negb (PrimFloat.eqb f 0%float)
  | VStr s => negb (String.eqb s "")
  | VDict d => negb (bool_decide (d = ∅))
  | VList l => negb (bool_decide (l = []))
  | VObjectId _ => true
  | VDatetime _ => true
  end.

(** ** Exceptions *)

(** An exception object (an instance of a subclass of [Exception]): its
    class and its message. *)
Record exn := Exn { exn_class : string; exn_msg : string }.

Inductive outcome (A : Type) : Type :=
| Return (a : A)
| Raise (e : exn).
Arguments Return {A} a.
Arguments Raise {A} e.

#[global] Instance outcome_ret : MRet outcome := fun A a => Return a.
#[global] Instance outcome_bind : MBind outcome := fun A B k m =>
  match m with
  | Return a => k a
  | Raise e => Raise e
  end.
#[global] Instance outcome_fmap : FMap outcome := fun A B f m =>
  match m with
  | Return a => Return (f a)
  | Raise e => Raise e
  end.

Definition ValueError (msg : string) : exn := Exn "ValueError" msg.
Definition KeyError (key : string) : exn := Exn "KeyError" key.
Definition TypeError (msg : string) : exn := Exn "TypeError" msg.
Definition AttributeError (msg : string) : exn := Exn "AttributeError" msg.
Definition IndexError (msg : string) : exn := Exn "IndexError" msg.

(** [v[key]] for a string key. *)
Definition getitem (v : value) (key : string) : outcome value :=
  match v with
  | VDict d =>
      match d !! key with
      | Some x => Return x
      | None => Raise (KeyError key)
      end
  | VList _ => Raise (TypeError "list indices must be integers or slices, not str")
  | VStr _ => Raise (TypeError "string indices must be integers, not 'str'")
  | _ => Raise (TypeError "object is not subscriptable")
  end.

(** ** Strings *)

Definition lower_ascii (c : ascii) : ascii :=
  let n := nat_of_ascii c in
  if (65 <=? n)%nat && (n <=? 90)%nat then ascii_of_nat (n + 32) else c.

(** [s.lower()]: the letters A to Z are lowered, every other character is
    left as it is. *)
Fixpoint lower (s : string) : string :=
  match s with
  | EmptyString => EmptyString
  | String c s' => String (lower_ascii c) (lower s')
  end.

(** [s.split(sep)] for a one-character separator: never the empty list. *)
Fixpoint split (sep : ascii) (s : string) : list string :=
  match s with
  | EmptyString => [EmptyString]
  | String c s' =>
      match split sep s' with
      | [] => [EmptyString]
      | w :: ws =>
          if Ascii.eqb c sep then EmptyString :: w :: ws
          else String c w :: ws
      end
  end.

(** [connection_string.split('/')[-1].split('?')[0]] *)
Definition parse_db_name (connection_string : string) : string :=
  let tail := default "" (last (split "/" connection_string)) in
  default "" (head (split "?" tail)).

(** ** The pymongo driver *)

Record Client := { client_uri : string }.
Record Database := { db_client : Client; db_name : string }.

(** Native bulk operations, built by [InsertOne(doc)],
    [UpdateOne(filter, update)] and [DeleteOne(filter)]. *)
Inductive mongo_op : Type :=
| InsertOne (doc : value)
| UpdateOne (filter : value) (update : document)
| DeleteOne (filter : value).

Record BulkWriteResult := {
  inserted_count : Z;
  modified_count : Z;
  deleted_count : Z
}.

(** What the adapter needs from pymongo.  [World] is the state of the
    server; every call may raise and may change the server.  A cursor is
    modelled by the list of documents it yields. *)
Class Pymongo := {
  World : Type;
  MongoClient : string -> document -> outcome Client;
  client_getitem : Client -> string -> outcome Database;
  admin_command : Client -> string -> World -> outcome unit * World;
  coll_find : Database -> string -> World -> outcome (list document) * World;
  coll_update_one :
    Database -> string -> document -> document -> World -> outcome unit * World;
  coll_bulk_write :
    Database -> string -> list mongo_op -> World -> outcome BulkWriteResult * World
}.

(** [cursor.limit(n)]: 0 is no limit, a negative limit is its absolute value. *)
Definition cursor_limit (n : Z) (docs : list document) : list document :=
  if n =? 0 then docs else take (Z.abs_nat n) docs.

(** ** Computations: server state and exceptions *)

Section Computation.
Context `{Pymongo}.

Definition M (A : Type) : Type := World -> outcome A * World.

Definition ret {A} (a : A) : M A := fun w => (Return a, w).
Definition raise {A} (e : exn) : M A := fun w => (Raise e, w).
Definition bind {A B} (m : M A) (k : A -> M B) : M B := fun w =>
    match m w with
    | (Return a, w') => k a w'
    | (Raise e, w') => (Raise e, w')
    end.
Definition lift {A} (o : outcome A) : M A := fun w => (o, w).

(** [try: body except Exception as e: handler(e)] *)
Definition try_except {A} (body : M A) (handler : exn -> M A) : M A := fun w =>
    match body w with
    | (Return a, w') => (Return a, w')
    | (Raise e, w') => handler e w'
    end.
End Computation.

Notation "x <- m ;; k" := (bind m (fun x => k))
  (at level 100, m at next level, right associativity).

(** ** Schema records *)

Module FieldSchema.
Record t := mk {
  name : string;
  type : string;
  nullable : bool;
  indexed : bool;
  unique : bool;
  reference : option string
}.
End FieldSchema.

Module DocumentSchema.
Record t := mk {
  name : string;
  fields : gmap string FieldSchema.t;
  primary_key : string
}.
End DocumentSchema.

(** [FieldSchema(name=.., type=.., nullable=..)]: the other fields take their
    defaults. *)
Definition new_FieldSchema (name type : string) (nullable : bool) : FieldSchema.t :=
  FieldSchema.mk name type nullable false false None.

(** [DocumentSchema(name=.., fields=..)], with [primary_key] defaulted. *)
Definition new_DocumentSchema (name : string) (fields : gmap string FieldSchema.t)
  : DocumentSchema.t :=
  DocumentSchema.mk name fields "_id".

(** The order in which Python iterates over a set of strings depends on the
    hashes of its elements; all that is known of [list(s)] is that it
    enumerates [s] once. *)
Class PySetOrder := {
  set_iter : gset string -> list string;
  set_iter_perm : forall s, set_iter s ≡ₚ elements s
}.

(** ** BulkOperation translation *)

(** pymongo's [validate_is_mapping], applied to the filter by [UpdateOne] and
    [DeleteOne]. *)
Definition validate_is_mapping (option : string) (v : value) : outcome unit :=
  match v with
  | VDict _ => Return tt
  | _ => Raise (TypeError (option +:+ " must be an instance of dict"))
  end.

(** One turn of the loop of [bulk_write]: the native operation appended for
    [op], if any. *)
Definition translate_op (op : document) : outcome (option mongo_op) :=
  match op !! "insert_one" with
  | Some doc => Return (Some (InsertOne doc))
  | None =>
      match op !! "update_one" with
      | Some u =>
          filter ← getitem u "filter";
          update ← getitem u "update";
          _ ← validate_is_mapping "filter" filter;
          Return (Some (UpdateOne filter {["$set" := update]}))
      | None =>
          match op !! "delete_one" with
          | Some filter =>
              _ ← validate_is_mapping "filter" filter;
              Return (Some (DeleteOne filter))
          | None => Return None
          end
      end
  end.

(** The list [mongo_ops] built by the loop over [operations]. *)
Fixpoint mongo_ops (operations : list document) : outcome (list mongo_op) :=
  match operations with
  | [] => Return []
  | op :: rest =>
      o ← translate_op op;
      os ← mongo_ops rest;
      Return (option_list o ++ os)
  end.

Record BulkResult := {
  inserted : Z;
  updated : Z;
  deleted : Z
}.

Definition summary (result : BulkWriteResult) : BulkResult :=
  {| inserted := inserted_count result;
     updated := modified_count result;
     deleted := deleted_count result |}.

(** ** Schema inference: the pure part *)

(** The [isinstance] chain of [get_schema]; [None] when no branch applies. *)
Definition classify (v : value) : option string :=
  match v with
  | VBool _ => Some "boolean"
  | VInt _ => Some "integer"
  | VFloat _ => Some "float"
  | VStr _ => Some "string"
  | VDict _ => Some "object"
  | VList _ => Some "array"
  | VObjectId _ => Some "objectid"
  | VNone | VDatetime _ => None
  end.

(** One turn of the inner loop: [(types, nullable)] after looking at [doc]. *)
Definition observe (field_name : string) (acc : gset string * bool) (doc : document)
  : gset string * bool :=
  match doc !! field_name with
  | None => (acc.1, true)
  | Some v =>
      match classify v with
      | Some tag => (acc.1 ∪ {[tag]}, acc.2)
      | None => acc
      end
  end.

Definition scan_field (field_name : string) (sample_docs : list document)
  : gset string * bool :=
  foldl (observe field_name) (∅, false) sample_docs.

Definition all_field_names (sample_docs : list document) : gset string :=
  foldl (fun names doc => names ∪ dom doc) ∅ sample_docs.

Section Inference.
Context `{PySetOrder}.

(** [list(types)[0] if types else 'unknown'] *)
Definition field_type (types : gset string) : outcome string :=
  if bool_decide (types = ∅) then Return "unknown"
  else
    match set_iter types with
    | tag :: _ => Return tag
    | [] => Raise (IndexError "list index out of range")
    end.

(** The loop over [all_field_names], filling [field_info]. *)
Fixpoint infer_fields (sample_docs : list document) (names : list string)
    (field_info : gmap string FieldSchema.t) : outcome (gmap string FieldSchema.t) :=
  match names with
  | [] => Return field_info
  | field_name :: rest =>
      if String.eqb field_name "_id" then infer_fields sample_docs rest field_info
      else
        let '(types, nullable) := scan_field field_name sample_docs in
        ty ← field_type types;
        infer_fields sample_docs rest
          (<[field_name := new_FieldSchema field_name ty nullable]> field_info)
  end.

Definition infer_schema (collection : string) (sample_docs : list document)
  : outcome DocumentSchema.t :=
  if bool_decide (sample_docs = []) then Return (new_DocumentSchema collection ∅)
  else
    field_info ← infer_fields sample_docs (set_iter (all_field_names sample_docs)) ∅;
    Return (new_DocumentSchema collection field_info).
(** The type reported for a field of the sample. *)
Definition inferred_type (sample_docs : list document) (field_name : string) : string :=
  match field_type (scan_field field_name sample_docs).1 with
  | Return ty => ty
  | Raise _ => "unknown"
  end.

Definition inferred_field (sample_docs : list document) (field_name : string)
  : FieldSchema.t :=
  new_FieldSchema field_name (inferred_type sample_docs field_name)
    (scan_field field_name sample_docs).2.

End Inference.

(** ** MongoDBAdapter *)

Record MongoDBAdapter := {
  client : option Client;
  db : option Database;
  connection_string : option string
}.

(** [MongoDBAdapter.__init__] *)
Definition MongoDBAdapter_init : MongoDBAdapter :=
  {| client := None; db := None; connection_string := None |}.

Definition set_client (self : MongoDBAdapter) (c : Client) : MongoDBAdapter :=
  {| client := Some c; db := db self; connection_string := connection_string self |}.

Definition set_db (self : MongoDBAdapter) (d : Database) : MongoDBAdapter :=
  {| client := client self; db := Some d; connection_string := connection_string self |}.

Definition set_connection_string (self : MongoDBAdapter) (s : string) : MongoDBAdapter :=
  {| client := client self; db := db self; connection_string := Some s |}.

(** [self.db[collection]]: subscripting [None] is a [TypeError]. *)
Definition self_db_getitem (self : MongoDBAdapter) : outcome Database :=
  match db self with
  | Some d => Return d
  | None => Raise (TypeError "'NoneType' object is not subscriptable")
  end.

(** [self.db.client]: an attribute of [None] is an [AttributeError]. *)
Definition self_db_client (self : MongoDBAdapter) : outcome Client :=
  match db self with
  | Some d => Return (db_client d)
  | None => Raise (AttributeError "'NoneType' object has no attribute 'client'")
  end.

Definition is_connected (self : MongoDBAdapter) : bool :=
  bool_decide (is_Some (db self)).

Section Adapter.
Context `{Pymongo} `{PySetOrder}.

(** [connect]: the handler of its [try] logs and re-raises, so an exception
    leaves the assignments made before it in place. *)
Definition connect (self : MongoDBAdapter) (connection_string : string)
    (options : document) : outcome unit * MongoDBAdapter :=
  match MongoClient connection_string options with
  | Raise e => (Raise e, self)
  | Return c =>
      let self := set_client self c in
      let db_name := parse_db_name connection_string in
      if String.eqb db_name "" then
        (Raise (ValueError "Database name not found in connection string"), self)
      else
        match client_getitem c db_name with
        | Raise e => (Raise e, self)
        | Return d =>
            (Return tt, set_connection_string (set_db self d) connection_string)
        end
  end.

Definition health_check (self : MongoDBAdapter) : M bool :=
  try_except
    (c <- lift (self_db_client self) ;;
     _ <- admin_command c "ping" ;;
     ret true)
    (fun e => ret false).

Definition bulk_write (self : MongoDBAdapter) (collection : string)
    (operations : list document) : M BulkResult :=
  ops <- lift (mongo_ops operations) ;;
  match ops with
  | _ :: _ =>
      d <- lift (self_db_getitem self) ;;
      result <- coll_bulk_write d collection ops ;;
      ret (summary result)
  | [] => ret {| inserted := 0; updated := 0; deleted := 0 |}
  end.

(** The body of the [for doc in docs] loop of [mask_field], with the running
    [masked_count]. *)
Fixpoint mask_loop (d : Database) (collection field : string)
    (mask_fn : value -> outcome value) (docs : list document) (masked_count : Z)
  : M Z :=
  match docs with
  | [] => ret masked_count
  | doc :: rest =>
      match doc !! field with
      | Some v =>
          if truthy v then
            masked_value <- lift (mask_fn v) ;;
            id <- lift (getitem (VDict doc) "_id") ;;
            _ <- coll_update_one d collection {["_id" := id]}
                   {["$set" := VDict {[field := masked_value]}]} ;;
            mask_loop d collection field mask_fn rest (masked_count + 1)
          else mask_loop d collection field mask_fn rest masked_count
      | None => mask_loop d collection field mask_fn rest masked_count
      end
  end.

Definition mask_field (self : MongoDBAdapter) (collection field : string)
    (mask_fn : value -> outcome value) : M Z :=
  d <- lift (self_db_getitem self) ;;
  docs <- coll_find d collection ;;
  mask_loop d collection field mask_fn docs 0.

Definition get_schema (self : MongoDBAdapter) (collection : string)
    (sample_size : Z) : M DocumentSchema.t :=
  d <- lift (self_db_getitem self) ;;
  docs <- coll_find d collection ;;
  lift (infer_schema collection (cursor_limit sample_size docs)).

End Adapter.

(** ** PostgreSQLAdapter and the factory *)

Inductive PgHandle := pg_handle (dsn : string).

Record PostgreSQLAdapter := {
  connection : option PgHandle;
  cursor : option PgHandle
}.

(** [PostgreSQLAdapter.__init__] *)
Definition PostgreSQLAdapter_init : PostgreSQLAdapter :=
  {| connection := None; cursor := None |}.

Inductive adapter_class := MongoDBAdapter_class | PostgreSQLAdapter_class.

Inductive DataAdapter :=
| Mongo (a : MongoDBAdapter)
| Postgres (a : PostgreSQLAdapter).

(** [adapter_class()] *)
Definition instantiate (cls : adapter_class) : DataAdapter :=
  match cls with
  | MongoDBAdapter_class => Mongo MongoDBAdapter_init
  | PostgreSQLAdapter_class => Postgres PostgreSQLAdapter_init
  end.

Definition adapters : gmap string adapter_class :=
  {[ "mongodb" := MongoDBAdapter_class; "postgresql" := PostgreSQLAdapter_class ]}.

Section Factory.
Context `{Pymongo}.

Definition get_adapter (database_type : string) : M DataAdapter :=
  match adapters !! lower database_type with
  | Some adapter_class => ret (instantiate adapter_class)
  | None => raise (ValueError ("Unknown database type: " +:+ database_type))
  end.

End Factory.

(** ** An in-memory driver

    A small server on which the adapter runs: collections are lists of
    documents in insertion order, filters match by equality of scalar
    fields, and a bulk write is ordered (it executes its operations one
    after the other and stops at the first that fails), as pymongo's is by
    default. *)

Module MemMongo.

Record world := {
  server_up : bool;
  next_oid : N;
  collections : gmap string (list document)
}.

Definition scalar_eqb (a b : value) : bool :=
  match a, b with
  | VNone, VNone => true
  | VBool x, VBool y => Bool.eqb x y
  | VInt x, VInt y => x =? y
  | VFloat x, VFloat y => PrimFloat.eqb x y
  | VStr x, VStr y => String.eqb x y
  | VObjectId x, VObjectId y => (x =? y)%N
  | VDatetime x, VDatetime y => x =? y
  | _, _ => false
  end.

Definition matches (filter doc : document) : bool :=
  forallb
    (fun kv => match doc !! kv.1 with
               | Some v => scalar_eqb v kv.2
               | None => false
               end)
    (map_to_list filter).

(** Apply [f] to the first document matching [filter]; [f] returning
    [None] removes it.  The second component counts the documents matched. *)
Fixpoint on_first (filter : document) (f : document -> option document)
    (docs : list document) : list document * Z :=
  match docs with
  | [] => ([], 0)
  | doc :: rest =>
      if matches filter doc then (option_list (f doc) ++ rest, 1)
      else let '(rest', n) := on_first filter f rest in (doc :: rest', n)
  end.

Definition namespace (d : Database) (collection : string) : string :=
  db_name d +:+ "." +:+ collection.

Definition docs_of (w : world) (d : Database) (collection : string) : list document :=
  default [] (collections w !! namespace d collection).

Definition put_docs (w : world) (d : Database) (collection : string)
    (docs : list document) : world :=
  {| server_up := server_up w;
     next_oid := next_oid w;
     collections := <[namespace d collection := docs]> (collections w) |}.

Definition unreachable : exn :=
  Exn "ServerSelectionTimeoutError" "No servers found yet".

Definition counts (i m r : Z) : BulkWriteResult :=
  {| inserted_count := i; modified_count := m; deleted_count := r |}.

Definition add_counts (a b : BulkWriteResult) : BulkWriteResult :=
  counts (inserted_count a + inserted_count b)
         (modified_count a + modified_count b)
         (deleted_count a + deleted_count b).

(** One native operation on one collection. *)
Definition exec_op (op : mongo_op) (oid : N) (docs : list document)
  : outcome (N * list document * BulkWriteResult) :=
  match op with
  | InsertOne (VDict doc) =>
      match doc !! "_id" with
      | Some id =>
          if existsb (matches {["_id" := id]}) docs
          then Raise (Exn "BulkWriteError" "E11000 duplicate key error")
          else Return (oid, (docs ++ [doc]), counts 1 0 0)
      | None =>
          Return ((oid + 1)%N, (docs ++ [<["_id" := VObjectId oid]> doc]),
                  counts 1 0 0)
      end
  | InsertOne _ => Raise (TypeError "document must be an instance of dict")
  | UpdateOne (VDict filter) update =>
      match update !! "$set" with
      | Some (VDict fields) =>
          let '(docs', n) := on_first filter (fun doc => Some (fields ∪ doc)) docs in
          Return (oid, docs', counts 0 n 0)
      | _ => Raise (Exn "BulkWriteError" "Modifiers operate on fields")
      end
  | DeleteOne (VDict filter) =>
      let '(docs', n) := on_first filter (fun _ => None) docs in
      Return (oid, docs', counts 0 0 n)
  | _ => Raise (TypeError "filter must be an instance of dict")
  end.

Fixpoint exec_ops (ops : list mongo_op) (oid : N) (docs : list document)
    (acc : BulkWriteResult) : outcome BulkWriteResult * (N * list document) :=
  match ops with
  | [] => (Return acc, (oid, docs))
  | op :: rest =>
      match exec_op op oid docs with
      | Return (oid', docs', r) => exec_ops rest oid' docs' (add_counts acc r)
      | Raise e => (Raise e, (oid, docs))
      end
  end.

Definition bulk (d : Database) (collection : string) (ops : list mongo_op)
    (w : world) : outcome BulkWriteResult * world :=
  if server_up w then
    let '(r, (oid, docs)) :=
      exec_ops ops (next_oid w) (docs_of w d collection) (counts 0 0 0) in
    (r, {| server_up := true; next_oid := oid;
           collections := <[namespace d collection := docs]> (collections w) |})
  else (Raise unreachable, w).

Definition find (d : Database) (collection : string) (w : world)
  : outcome (list document) * world :=
  if server_up w then (Return (docs_of w d collection), w)
  else (Raise unreachable, w).

Definition update_one (d : Database) (collection : string)
    (filter update : document) (w : world) : outcome unit * world :=
  match bulk d collection [UpdateOne (VDict filter) update] w with
  | (Return _, w') => (Return tt, w')
  | (Raise e, w') => (Raise e, w')
  end.

Definition command (c : Client) (name : string) (w : world)
  : outcome unit * world :=
  if server_up w then (Return tt, w) else (Raise unreachable, w).

Definition new_client (uri : string) (options : document) : outcome Client :=
  if String.prefix "mongodb://" uri || String.prefix "mongodb+srv://" uri
  then Return {| client_uri := uri |}
  else Raise (Exn "InvalidURI" "Invalid URI scheme").

Definition get_database (c : Client) (name : string) : outcome Database :=
  if existsb (fun ch => existsb (Ascii.eqb ch) (list_ascii_of_string name))
       (list_ascii_of_string " .$/\")
  then Raise (Exn "InvalidName" "database names cannot contain that character")
  else Return {| db_client := c; db_name := name |}.

#[export] Instance driver : Pymongo := {|
  World := world;
  MongoClient := new_client;
  client_getitem := get_database;
  admin_command := command;
  coll_find := find;
  coll_update_one := update_one;
  coll_bulk_write := bulk
|}.

(** Two iteration orders for sets of strings. *)
#[export] Instance ascending : PySetOrder :=
  {| set_iter := elements; set_iter_perm := fun s => reflexivity (elements s) |}.


Definition up (colls : gmap string (list document)) : world :=
  {| server_up := true; next_oid := 1000; collections := colls |}.

Definition down : world :=
  {| server_up := false; next_oid := 1000; collections := ∅ |}.

End MemMongo.

(** ** Sample data *)

Module Samples.
Import MemMongo.

Definition uri : string := "mongodb://localhost:27017/testdb?retryWrites=true".
Definition uri' : string := "mongodb://replica:27017/staging".

(** An adapter after [connect(uri)]. *)
Definition connected : MongoDBAdapter :=
  (connect MongoDBAdapter_init uri ∅).2.

Definition testdb : Database :=
  {| db_client := {| client_uri := uri |}; db_name := "testdb" |}.

End Samples.

(** ** Definitions used to state the properties *)

Definition is_insert (op : mongo_op) : bool :=
  match op with InsertOne _ => true | _ => false end.
Definition is_update (op : mongo_op) : bool :=
  match op with UpdateOne _ _ => true | _ => false end.
Definition is_delete (op : mongo_op) : bool :=
  match op with DeleteOne _ => true | _ => false end.

(** The operations of one variant among the per-operation translations. *)
Definition of_variant (variant : mongo_op -> bool) (o : option mongo_op) : bool :=
  match o with
  | Some op => variant op
  | None => false
  end.

Section PartitionedTranslator.
Context `{Pymongo}.

(** One partition sent as one native batch call; an empty partition sends
    nothing. *)
Definition call_partition (d : Database) (collection : string)
    (part : list mongo_op) : M BulkWriteResult :=
  match part with
  | [] => ret {| inserted_count := 0; modified_count := 0; deleted_count := 0 |}
  | _ :: _ => coll_bulk_write d collection part
  end.

(** The translator in the words of the specification (section 4.2), to be
    compared with [bulk_write]: the batch is partitioned by variant, the
    partitions are executed Insert, then Update, then Delete, and their
    counts are accumulated. *)
Definition bulk_write_partitioned (self : MongoDBAdapter) (collection : string)
    (operations : list document) : M BulkResult :=
  ops <- lift (mongo_ops operations) ;;
  d <- lift (self_db_getitem self) ;;
  i <- call_partition d collection (List.filter is_insert ops) ;;
  u <- call_partition d collection (List.filter is_update ops) ;;
  r <- call_partition d collection (List.filter is_delete ops) ;;
  ret {| inserted := inserted_count i + inserted_count u + inserted_count r;
         updated := modified_count i + modified_count u + modified_count r;
         deleted := deleted_count i + deleted_count u + deleted_count r |}.

End PartitionedTranslator.

Module BulkSamples.
Import MemMongo.

Definition record7 : document := {[ "_id" := VInt 7; "k" := VInt 1 ]}.

(** [[{'delete_one': {'k': 1}}, {'insert_one': {'_id': 7, 'k': 1}}]] *)
Definition delete_then_insert : list document :=
  [ {[ "delete_one" := VDict {[ "k" := VInt 1 ]} ]};
    {[ "insert_one" := VDict record7 ]} ].

Definition empty_server : world := up ∅.

End BulkSamples.

(** What a caller gets back as a count: nothing when the call raised. *)
Definition returned_count (o : outcome Z) : option Z :=
  match o with
  | Return n => Some n
  | Raise _ => None
  end.

(** The tags the [isinstance] chain can add to [types]. *)
Definition observable_tags : list string :=
  ["boolean"; "integer"; "float"; "string"; "object"; "array"; "objectid"].

(** A tag is observed for a field when some sampled record holds, in that
    field, a value the [isinstance] chain classifies with it. *)
Definition observed (sample_docs : list document) (field_name tag : string) : Prop :=
  exists doc v,
    doc ∈ sample_docs /\ doc !! field_name = Some v /\ classify v = Some tag.

(** The type tags of the data model of the specification. *)
Definition spec_type_tags : list string :=
  ["string"; "integer"; "float"; "boolean"; "date"; "object"; "array";
   "identifier"; "unknown"].

(** The same list with the tag the source uses for [ObjectId] values. *)
Definition source_type_tags : list string :=
  ["string"; "integer"; "float"; "boolean"; "date"; "object"; "array";
   "objectid"; "unknown"].

(** The type a returned schema gives to a field. *)
Definition reported_type (o : outcome DocumentSchema.t) (field_name : string)
  : option string :=
  match o with
  | Return schema => FieldSchema.type <$> DocumentSchema.fields schema !! field_name
  | Raise _ => None
  end.

Module SchemaSamples.
Import MemMongo.

(** [x] is an integer in one record and a string in the other. *)
Definition mixed : list document :=
  [ {[ "_id" := VInt 1; "x" := VInt 1 ]};
    {[ "_id" := VInt 2; "x" := VStr "one" ]} ].

(** [owner] holds an [ObjectId]. *)
Definition owned : list document :=
  [ {[ "_id" := VInt 1; "owner" := VObjectId 5 ]} ].

(** [n] is an integer everywhere, [tag] is missing from the second record. *)
Definition counted : list document :=
  [ {[ "_id" := VInt 1; "n" := VInt 3; "tag" := VStr "a" ]};
    {[ "_id" := VInt 2; "n" := VInt 0 ]} ].

Definition items (docs : list document) : world := up {[ "testdb.items" := docs ]}.

End SchemaSamples.

Module MaskSamples.
Import MemMongo.

Definition ann : document := {[ "_id" := VInt 1; "email" := VStr "ann@example.org" ]}.
Definition bob : document := {[ "_id" := VInt 2; "email" := VStr "bob" ]}.
Definition cyd : document := {[ "_id" := VInt 3; "email" := VStr "cyd@example.org" ]}.
Definition ann_masked : document := {[ "_id" := VInt 1; "email" := VStr "***" ]}.
Definition cyd_masked : document := {[ "_id" := VInt 3; "email" := VStr "***" ]}.

Definition people (docs : list document) : world := up {[ "testdb.people" := docs ]}.

(** A masking function that rejects what is not an address. *)
Definition redact (v : value) : outcome value :=
  match v with
  | VStr s =>
      if existsb (Ascii.eqb "@"%char) (list_ascii_of_string s)
      then Return (VStr "***")
      else Raise (ValueError "not an address")
  | _ => Raise (TypeError "expected str")
  end.

Definition zero_score : document := {[ "_id" := VInt 4; "email" := VInt 0 ]}.

End MaskSamples.

(** ** The rest of the adapter

    The methods of [MongoDBAdapter] beside those above, over the further
    driver calls they make. *)

(** The further pymongo calls: [client.close()],
    [db.list_collection_names()], [db.create_collection(name)] with or
    without a validator, [collection.insert_many(docs)] (answering the
    [inserted_ids] of its result), [collection.find(query)] and
    [db.command(name, collection)]. *)
Class PymongoOps `{Pymongo} := {
  client_close : Client -> World -> outcome unit * World;
  list_collection_names : Database -> World -> outcome (list string) * World;
  db_create_collection :
    Database -> string -> option document -> World -> outcome unit * World;
  coll_insert_many :
    Database -> string -> list document -> World -> outcome (list value) * World;
  coll_find_query :
    Database -> string -> document -> World -> outcome (list document) * World;
  db_command : Database -> string -> string -> World -> outcome document * World
}.

(** [cursor.skip(n)] refuses a negative count when it is called, before the
    cursor is read. *)
Definition check_skip (n : Z) : outcome unit :=
  if n <? 0 then Raise (ValueError "skip must be >= 0") else Return tt.

(** [len(v)] *)
Definition py_len (v : value) : outcome Z :=
  match v with
  | VDict d => Return (Z.of_nat (size d))
  | VList l => Return (Z.of_nat (length l))
  | VStr s => Return (Z.of_nat (String.length s))
  | _ => Raise (TypeError "object has no len()")
  end.

(** [self.db.<attr>] *)
Definition self_db_attr (self : MongoDBAdapter) (attr : string) : outcome Database :=
  match db self with
  | Some d => Return d
  | None =>
      Raise (AttributeError ("'NoneType' object has no attribute '" +:+ attr +:+ "'"))
  end.

Section AdapterOps.
Context `{PymongoOps}.

Definition disconnect (self : MongoDBAdapter) : M unit :=
  match client self with
  | Some c => client_close c
  | None => ret tt
  end.

(** [str(e)] is the message of the exception. *)
Definition validate_connection (self : MongoDBAdapter) : M (bool * string) :=
  try_except
    (c <- lift (self_db_client self) ;;
     _ <- admin_command c "ping" ;;
     d <- lift (self_db_attr self "name") ;;
     ret (true, "Connected to MongoDB: " +:+ db_name d))
    (fun e => ret (false, "MongoDB connection failed: " +:+ exn_msg e)).

Definition create_collection (self : MongoDBAdapter) (collection_name : string)
    (schema : option document) : M unit :=
  d <- lift (self_db_attr self "list_collection_names") ;;
  names <- list_collection_names d ;;
  if bool_decide (collection_name ∈ names) then ret tt
  else
    match schema with
    | Some s =>
        if truthy (VDict s)
        then db_create_collection d collection_name (Some {[ "$jsonSchema" := VDict s ]})
        else db_create_collection d collection_name None
    | None => db_create_collection d collection_name None
    end.

Definition insert_documents (self : MongoDBAdapter) (collection : string)
    (documents : list document) : M Z :=
  match documents with
  | [] => ret 0
  | _ :: _ =>
      d <- lift (self_db_getitem self) ;;
      inserted_ids <- coll_insert_many d collection documents ;;
      ret (Z.of_nat (length inserted_ids))
  end.

Definition find_documents (self : MongoDBAdapter) (collection : string)
    (query : option document) (limit skip : Z) : M (list document) :=
  let query := default ∅ query in
  d <- lift (self_db_getitem self) ;;
  _ <- lift (check_skip skip) ;;
  docs <- coll_find_query d collection query ;;
  let docs := drop (Z.to_nat skip) docs in
  ret (if 0 <? limit then take (Z.to_nat limit) docs else docs).

Definition get_collection_stats (self : MongoDBAdapter) (collection : string)
  : M document :=
  d <- lift (self_db_attr self "command") ;;
  stats <- db_command d "collStats" collection ;;
  indexes <- lift (py_len (default (VDict ∅) (stats !! "indexSizes"))) ;;
  ret ({[ "count" := default (VInt 0) (stats !! "count");
          "size" := default (VInt 0) (stats !! "size");
          "avg_doc_size" := default (VInt 0) (stats !! "avgObjSize");
          "indexes" := VInt indexes ]} : document).

End AdapterOps.

(** [stats.get(key, fallback)], as the callers of [get_collection_stats]
    read its result. *)
Definition dict_get (d : document) (key : string) (fallback : value) : value :=
  default fallback (d !! key).

(** ** test-data-automation/ista_mongo_cli.py *)

Module MongoDBClient.

Record t := {
  client : option Client;
  db : option Database;
  db_name : option string
}.


(** [serverSelectionTimeoutMS=5000, connectTimeoutMS=10000] *)
Definition options : document :=
  {[ "serverSelectionTimeoutMS" := VInt 5000; "connectTimeoutMS" := VInt 10000 ]}.

Section Client.
Context `{Pymongo}.

(** The body of the [try] of [connect]: the client is stored before the
    ping, the database name before the database. *)
Definition connect_body (self : t) (mongodb_uri : string) (w : World)
  : outcome bool * t * World :=
  match MongoClient mongodb_uri options with
  | Raise e => (Raise e, self, w)
  | Return c =>
      let self := {| client := Some c; db := db self; db_name := db_name self |} in
      match admin_command c "ping" w with
      | (Raise e, w') => (Raise e, self, w')
      | (Return _, w') =>
          let name := parse_db_name mongodb_uri in
          let name := if String.eqb name "" then "test" else name in
          let self := {| client := client self; db := db self; db_name := Some name |} in
          match client_getitem c name with
          | Raise e => (Raise e, self, w')
          | Return d =>
              (Return true,
               {| client := client self; db := Some d; db_name := db_name self |}, w')
          end
      end
  end.

(** [connect]: both [except] clauses log and return [False]. *)
Definition connect (self : t) (mongodb_uri : string) (w : World)
  : outcome bool * t * World :=
  match connect_body self mongodb_uri w with
  | (Raise _, self', w') => (Return false, self', w')
  | (Return b, self', w') => (Return b, self', w')
  end.

End Client.
End MongoDBClient.

(** *** [_mask_email] *)

(** [\w] on ASCII characters: digits, letters and the underscore.  Strings
    are sequences of bytes here, and a byte of 128 or more is part of the
    encoding of a character outside ASCII, which [\w] may or may not match;
    [is_word] answers [false] on it, so the properties of [_mask_email] that
    rest on a character not being a word character are stated for ASCII
    characters. *)
Definition is_word (c : ascii) : bool :=
  let n := nat_of_ascii c in
  ((48 <=? n) && (n <=? 57) || (65 <=? n) && (n <=? 90)
   || (97 <=? n) && (n <=? 122) || (n =? 95))%nat.

(** What is left of [s] after its longest prefix of word characters: where
    the greedy run of word characters stops. *)
Fixpoint after_words (s : string) : string :=
  match s with
  | String c s' => if is_word c then after_words s' else s
  | EmptyString => EmptyString
  end.

(** The longest prefix of [s] without a newline: what the greedy [.+] takes. *)
Fixpoint up_to_newline (s : string) : string :=
  match s with
  | String c s' =>
      if Ascii.eqb c "010"%char then EmptyString else String c (up_to_newline s')
  | EmptyString => EmptyString
  end.

Definition masked_fallback : string := "masked@example.com".

(** [re.match] of the pattern of [_mask_email] (one word character, then
    as many word characters as there are, then an at sign, then one or more
    characters other than a newline) and the two answers built from it; the
    match is anchored at the start of the string only. *)
Definition _mask_email (email : string) : string :=
  match email with
  | String c rest =>
      if is_word c then
        match after_words rest with
        | String at_sign domain =>
            if Ascii.eqb at_sign "@"%char then
              match up_to_newline domain with
              | EmptyString => masked_fallback
              | String _ _ as group3 => String c ("***@" +:+ group3)
              end
            else masked_fallback
        | EmptyString => masked_fallback
        end
      else masked_fallback
  | EmptyString => masked_fallback
  end.

(** *** The batches of [provision] *)

(** [range(start, stop, step)] for a positive step. *)
Definition py_range (start stop step : Z) : list Z :=
  let n := if start <? stop then (stop - start - 1) / step + 1 else 0 in
  (fun i => start + Z.of_nat i * step) <$> seq 0 (Z.to_nat n).

Definition batch_size : Z := 100.

(** The successive values of [batch_count] in the loop over
    [range(0, volume, batch_size)]. *)
Definition batch_counts (volume : Z) : list Z :=
  (fun batch_start => Z.min (batch_start + batch_size) volume - batch_start)
    <$> py_range 0 volume batch_size.

(** The masking of one generated user: [doc['email'] = _mask_email(doc['email'])]
    when the key is there; [re.match] refuses what is not a string. *)
Definition mask_user (doc : document) : outcome document :=
  match doc !! "email" with
  | Some (VStr email) => Return (<["email" := VStr (_mask_email email)]> doc)
  | Some _ => Raise (TypeError "expected string or bytes-like object")
  | None => Return doc
  end.

Fixpoint mask_users (docs : list document) : outcome (list document) :=
  match docs with
  | [] => Return []
  | doc :: rest =>
      doc' ← mask_user doc;
      rest' ← mask_users rest;
      Return (doc' :: rest')
  end.

(** ** test-data-automation/mongo_factories.py *)

(** The random sources of the factories: the default expressions of a
    [build] (all of them are evaluated, whatever the overrides),
    [random.choice] through the index it draws, [ObjectId()], and
    [fake.random_int(min, max)], which answers within its bounds. *)
Class Randomness := {
  Rng : Type;
  draw_defaults : string -> Rng -> (string -> value) * Rng;
  randbelow : nat -> Rng -> nat * Rng;
  randbelow_lt : forall n r, (0 < n)%nat -> ((randbelow n r).1 < n)%nat;
  fresh_ObjectId : Rng -> N * Rng;
  random_int : Z -> Z -> Rng -> Z * Rng;
  random_int_range :
    forall lo hi r, lo <= hi -> lo <= (random_int lo hi r).1 <= hi
}.

Inductive factory :=
| BaseFactory | MovieFactory | UserFactory | CommentFactory | SessionFactory.

Definition collection_name (f : factory) : string :=
  match f with
  | BaseFactory => "base"
  | MovieFactory => "movies"
  | UserFactory => "users"
  | CommentFactory => "comments"
  | SessionFactory => "sessions"
  end.

(** The keys of the dictionary literal of each [build]. *)
Definition factory_keys (f : factory) : list string :=
  match f with
  | BaseFactory => []
  | MovieFactory =>
      ["_id"; "title"; "year"; "rated"; "runtime"; "genres"; "director"; "writers";
       "cast"; "plot"; "fullplot"; "languages"; "countries"; "type"; "released";
       "imdb"; "tomatoes"; "awards"; "poster"; "metacritic"]
  | UserFactory =>
      ["_id"; "username"; "email"; "password_hash"; "profile"; "favorite_movies";
       "watch_history"; "preferences"; "subscription"; "created_at"; "updated_at"]
  | CommentFactory =>
      ["_id"; "movie_id"; "user_id"; "email"; "text"; "date"; "likes"; "is_hidden";
       "rating"; "replies"]
  | SessionFactory =>
      ["_id"; "user_id"; "token"; "refresh_token"; "created_at"; "expires_at";
       "last_activity"; "ip_address"; "user_agent"; "device_info"; "is_active"]
  end.

Definition NotImplementedError : exn := Exn "NotImplementedError" "".

(** A keyword argument that names a parameter already bound by position,
    as [cls] is in every call of a class method, is a [TypeError] of the
    call: it is raised before the body runs.  The message is given from
    [got] on; the interpreter prints the name of the callee before it. *)
Definition multiple_argument (name : string) : exn :=
  TypeError ("got multiple values for argument '" +:+ name +:+ "'").

(** Where several keywords name bound parameters, the interpreter reports
    the first of them in the order of the keywords.  The dictionaries of
    this development do not record that order; [first_bound params kwargs]
    stands for the choice: one of the parameters that [kwargs] names, none
    if there is none. *)
Class KeywordOrder := {
  first_bound : list string -> document -> option string;
  first_bound_Some : forall params kwargs name,
    first_bound params kwargs = Some name ->
    name ∈ params /\ is_Some (kwargs !! name);
  first_bound_None : forall params kwargs name,
    first_bound params kwargs = None -> name ∈ params -> kwargs !! name = None
}.

Section Factories.
Context `{Randomness} `{KeywordOrder}.

(** The default of one key: a constant for the [type] of a movie, a random
    draw otherwise. *)
Definition default_value (f : factory) (drawn : string -> value) (key : string) : value :=
  match f with
  | MovieFactory => if String.eqb key "type" then VStr "movie" else drawn key
  | _ => drawn key
  end.

(** [cls.build] called with the keywords [overrides]: a keyword [cls]
    collides with the class, bound by position; otherwise each key of the
    dictionary literal is [overrides.get(key, default)]. *)
Definition build (f : factory) (overrides : document) (r : Rng)
  : outcome document * Rng :=
  match overrides !! "cls" with
  | Some _ => (Raise (multiple_argument "cls"), r)
  | None =>
      match f with
      | BaseFactory => (Raise NotImplementedError, r)
      | _ =>
          let '(drawn, r') := draw_defaults (collection_name f) r in
          (Return
             (list_to_map
                ((fun key => (key, default (default_value f drawn key) (overrides !! key)))
                   <$> factory_keys f)),
           r')
      end
  end.

(** [cls.create] called with the keywords [overrides], which it passes on
    to [cls.build]. *)
Definition create (f : factory) (overrides : document) (r : Rng)
  : outcome document * Rng :=
  match overrides !! "cls" with
  | Some _ => (Raise (multiple_argument "cls"), r)
  | None => build f overrides r
  end.

(** The list comprehension of [create_batch], one [cls.create] with the
    overrides per turn, for [n] turns. *)
Fixpoint create_n (f : factory) (n : nat) (overrides : document) (r : Rng)
  : outcome (list document) * Rng :=
  match n with
  | O => (Return [], r)
  | S n' =>
      match create f overrides r with
      | (Raise e, r') => (Raise e, r')
      | (Return doc, r') =>
          match create_n f n' overrides r' with
          | (Raise e, r'') => (Raise e, r'')
          | (Return docs, r'') => (Return (doc :: docs), r'')
          end
      end
  end.

(** [cls.create_batch(count)] called with the keywords [overrides]: [cls]
    and [count] are bound by position, so a keyword of either name fails
    the call, whatever the count. *)
Definition create_batch (f : factory) (count : Z) (overrides : document) (r : Rng)
  : outcome (list document) * Rng :=
  match first_bound ["cls"; "count"] overrides with
  | Some name => (Raise (multiple_argument name), r)
  | None => create_n f (Z.to_nat count) overrides r
  end.

(** [random.choice(ids) if ids else ObjectId()] *)
Definition choose_id (ids : option (list N)) (r : Rng) : N * Rng :=
  match ids with
  | Some (id :: rest) =>
      let '(i, r') := randbelow (length (id :: rest)) r in
      (nth i (id :: rest) id, r')
  | _ => fresh_ObjectId r
  end.

(** The loop of [create_comment_dataset], for [n] turns. *)
Fixpoint comment_dataset_n (n : nat) (movie_ids user_ids : option (list N)) (r : Rng)
  : outcome (list document) * Rng :=
  match n with
  | O => (Return [], r)
  | S n' =>
      let '(movie_id, r1) := choose_id movie_ids r in
      let '(user_id, r2) := choose_id user_ids r1 in
      match create CommentFactory
              {[ "movie_id" := VObjectId movie_id; "user_id" := VObjectId user_id ]} r2 with
      | (Raise e, r3) => (Raise e, r3)
      | (Return comment, r3) =>
          match comment_dataset_n n' movie_ids user_ids r3 with
          | (Raise e, r4) => (Raise e, r4)
          | (Return comments, r4) => (Return (comment :: comments), r4)
          end
      end
  end.

Definition create_comment_dataset (count : Z) (movie_ids user_ids : option (list N))
    (r : Rng) : outcome (list document) * Rng :=
  comment_dataset_n (Z.to_nat count) movie_ids user_ids r.

(** Passing a keyword both by name and in [overrides] is a [TypeError] of
    the call, raised once the arguments have been evaluated and before the
    callee is entered.  The message is given from [got] on. *)
Definition multiple_values (key : string) : exn :=
  TypeError ("got multiple values for keyword argument '" +:+ key +:+ "'").

(** [MovieFactoryVariants.create_classic_movie]: a static method without
    parameters of its own; the year is drawn, then the keywords of the call
    of [MovieFactory.create] are put together. *)
Definition create_classic_movie (overrides : document) (r : Rng)
  : outcome document * Rng :=
  let '(year, r1) := random_int 1900 1979 r in
  match overrides !! "year" with
  | Some _ => (Raise (multiple_values "year"), r1)
  | None => create MovieFactory (<["year" := VInt year]> overrides) r1
  end.

(** [MovieFactoryVariants.create_modern_movie] *)
Definition create_modern_movie (overrides : document) (r : Rng)
  : outcome document * Rng :=
  let '(year, r1) := random_int 2000 2024 r in
  match overrides !! "year" with
  | Some _ => (Raise (multiple_values "year"), r1)
  | None => create MovieFactory (<["year" := VInt year]> overrides) r1
  end.

(** The loop of [create_movie_batch_with_genres], for [n] turns: each turn
    calls [MovieFactory.create] with [genres] and the overrides. *)
Fixpoint movie_batch_with_genres_n (n : nat) (genres : list string)
    (overrides : document) (r : Rng) : outcome (list document) * Rng :=
  match n with
  | O => (Return [], r)
  | S n' =>
      match overrides !! "genres" with
      | Some _ => (Raise (multiple_values "genres"), r)
      | None =>
          match create MovieFactory
                  (<["genres" := VList (VStr <$> genres)]> overrides) r with
          | (Raise e, r') => (Raise e, r')
          | (Return movie, r') =>
              match movie_batch_with_genres_n n' genres overrides r' with
              | (Raise e, r'') => (Raise e, r'')
              | (Return movies, r'') => (Return (movie :: movies), r'')
              end
          end
      end
  end.

(** [create_movie_batch_with_genres(count, genres)] called with the
    keywords [overrides]: [count] and [genres] are bound by position, so a
    keyword of either name fails the call, whatever the count. *)
Definition create_movie_batch_with_genres (count : Z) (genres : list string)
    (overrides : document) (r : Rng) : outcome (list document) * Rng :=
  match first_bound ["count"; "genres"] overrides with
  | Some name => (Raise (multiple_argument name), r)
  | None => movie_batch_with_genres_n (Z.to_nat count) genres overrides r
  end.

End Factories.

(** [factory_map] of [provision] *)
Definition factory_map : gmap string factory :=
  {[ "movies" := MovieFactory; "users" := UserFactory;
     "comments" := CommentFactory; "sessions" := SessionFactory ]}.

Section Provision.
Context `{PymongoOps} `{Randomness} `{KeywordOrder}.

(** The loop of [provision] that generates and inserts the documents of one
    collection, batch after batch, with the running [docs_created]. *)
Fixpoint provision_batches (self : MongoDBClient.t) (collection_name : string)
    (f : factory) (mask : bool) (counts : list Z) (docs_created : Z)
    (r : Rng) (w : World) : outcome Z * (Rng * World) :=
  match counts with
  | [] => (Return docs_created, (r, w))
  | batch_count :: rest =>
      match create_batch f batch_count ∅ r with
      | (Raise e, r') => (Raise e, (r', w))
      | (Return docs, r') =>
          match (if mask && String.eqb collection_name "users"
                 then mask_users docs else Return docs) with
          | Raise e => (Raise e, (r', w))
          | Return docs =>
              match MongoDBClient.db self with
              | None =>
                  (Raise (TypeError "'NoneType' object is not subscriptable"), (r', w))
              | Some d =>
                  match coll_insert_many d collection_name docs w with
                  | (Raise e, w') => (Raise e, (r', w'))
                  | (Return inserted_ids, w') =>
                      provision_batches self collection_name f mask rest
                        (docs_created + Z.of_nat (length inserted_ids)) r' w'
                  end
              end
          end
      end
  end.

Definition provision_collection (self : MongoDBClient.t) (collection_name : string)
    (f : factory) (mask : bool) (volume : Z) (r : Rng) (w : World)
  : outcome Z * (Rng * World) :=
  provision_batches self collection_name f mask (batch_counts volume) 0 r w.

End Provision.

(** ** test-data-automation/ista_data_cli.py *)

(** [c.isspace()], for ASCII characters. *)
Definition is_space (c : ascii) : bool :=
  let n := nat_of_ascii c in
  ((9 <=? n) && (n <=? 13) || (28 <=? n) && (n <=? 32))%nat.

(** [s.lstrip()] *)
Fixpoint lstrip (s : string) : string :=
  match s with
  | String c s' => if is_space c then lstrip s' else s
  | EmptyString => EmptyString
  end.

(** [s.rstrip()] *)
Fixpoint rstrip (s : string) : string :=
  match s with
  | EmptyString => EmptyString
  | String c s' =>
      match rstrip s' with
      | EmptyString => if is_space c then EmptyString else String c EmptyString
      | String _ _ as t => String c t
      end
  end.

(** [s.strip()] *)
Definition strip (s : string) : string := rstrip (lstrip s).

(** [[d.strip() for d in datasets.split(',')]] *)
Definition dataset_list (datasets : string) : list string :=
  strip <$> split "," datasets.

(** [{d: 100 for d in dataset_list}], the volumes when none are given. *)
Definition default_volumes (names : list string) : gmap string Z :=
  list_to_map ((fun d => (d, 100)) <$> names).

Definition first_char (s : string) : option ascii :=
  match s with
  | String c _ => Some c
  | EmptyString => None
  end.

Fixpoint last_char (s : string) : option ascii :=
  match s with
  | EmptyString => None
  | String c EmptyString => Some c
  | String _ s' => last_char s'
  end.

(** ** Further definitions used to state the properties *)

(** [c in s] for a character. *)
Definition contains (c : ascii) (s : string) : bool :=
  existsb (Ascii.eqb c) (list_ascii_of_string s).

(** A dataset name as the tool sends it: no comma in it, no white space at
    either end. *)
Definition clean_name (d : string) : Prop :=
  contains "," d = false
  /\ (forall c, first_char d = Some c -> is_space c = false)
  /\ (forall c, last_char d = Some c -> is_space c = false).

Definition all_words (s : string) : bool :=
  forallb is_word (list_ascii_of_string s).

Definition Zsum (l : list Z) : Z := foldr Z.add 0 l.

(** The record is one that [mask_field] masks. *)
Definition maskable (field : string) (doc : document) : bool :=
  match doc !! field with
  | Some v => truthy v
  | None => false
  end.

(** The operation carries none of the three keys [bulk_write] looks for. *)
Definition unrecognised (op : document) : Prop :=
  op !! "insert_one" = None /\ op !! "update_one" = None /\ op !! "delete_one" = None.

(** The errors of using [None] as a database. *)
Definition not_subscriptable : exn :=
  TypeError "'NoneType' object is not subscriptable".

Definition no_attribute (attr : string) : exn :=
  AttributeError ("'NoneType' object has no attribute '" +:+ attr +:+ "'").

Module MoreSamples.

(** [created] is a datetime and [note] is [None] in both records. *)
Definition dated : list document :=
  [ {[ "_id" := VInt 1; "created" := VDatetime 1700000000000; "note" := VNone ]};
    {[ "_id" := VInt 2; "created" := VDatetime 1700000360000; "note" := VNone ]} ].

End MoreSamples.

(** What masking does to one generated user. *)
Definition masked_user (doc doc' : document) : Prop :=
  dom doc' = dom doc
  /\ (forall key, key <> "email" -> doc' !! key = doc !! key)
  /\ (forall email, doc !! "email" = Some (VStr email) ->
                    doc' !! "email" = Some (VStr (_mask_email email))).

Definition email_is_text (doc : document) : Prop :=
  forall v, doc !! "email" = Some v -> exists email, v = VStr email.

Section Built.
Context `{Randomness}.

(** What [build] returns for a factory that implements it. *)
Definition built (f : factory) (overrides : document) (r : Rng) : document :=
  list_to_map
    ((fun key =>
        (key, default (default_value f (draw_defaults (collection_name f) r).1 key)
                (overrides !! key)))
       <$> factory_keys f).

End Built.

(** The document has exactly the keys of the factory. *)
Definition has_keys_of (f : factory) (doc : document) : Prop :=
  forall key, is_Some (doc !! key) <-> key ∈ factory_keys f.

(** The comment refers to a movie and a user, taken from the given lists
    when these are not empty. *)
Definition refers_to (movie_ids user_ids : option (list N)) (comment : document) : Prop :=
  exists movie_id user_id,
    comment !! "movie_id" = Some (VObjectId movie_id)
    /\ comment !! "user_id" = Some (VObjectId user_id)
    /\ (forall ids, movie_ids = Some ids -> ids <> [] -> movie_id ∈ ids)
    /\ (forall ids, user_ids = Some ids -> ids <> [] -> user_id ∈ ids).

(** The in-memory driver, for the further calls. *)
Module MemMongoOps.
Import MemMongo.

Fixpoint strip_prefix (p s : string) : option string :=
  match p, s with
  | EmptyString, _ => Some s
  | String a p', String b s' => if Ascii.eqb a b then strip_prefix p' s' else None
  | String _ _, EmptyString => None
  end.

Definition names (d : Database) (w : world) : list string :=
  omap (fun kv => strip_prefix (db_name d +:+ ".") kv.1) (map_to_list (collections w)).

Definition list_names (d : Database) (w : world) : outcome (list string) * world :=
  if server_up w then (Return (names d w), w) else (Raise unreachable, w).

Definition create (d : Database) (name : string) (validator : option document)
    (w : world) : outcome unit * world :=
  if server_up w then
    match collections w !! namespace d name with
    | Some _ => (Raise (Exn "CollectionInvalid" "collection already exists"), w)
    | None => (Return tt, put_docs w d name [])
    end
  else (Raise unreachable, w).

Definition insert_many (d : Database) (collection : string) (docs : list document)
    (w : world) : outcome (list value) * world :=
  match docs with
  | [] => (Raise (TypeError "documents must be a non-empty list"), w)
  | _ :: _ =>
      let before := length (docs_of w d collection) in
      match bulk d collection (InsertOne ∘ VDict <$> docs) w with
      | (Return _, w') =>
          (Return (omap (fun doc => doc !! "_id") (drop before (docs_of w' d collection))),
           w')
      | (Raise e, w') => (Raise e, w')
      end
  end.

Definition find_query (d : Database) (collection : string) (query : document)
    (w : world) : outcome (list document) * world :=
  if server_up w
  then (Return (List.filter (matches query) (docs_of w d collection)), w)
  else (Raise unreachable, w).

(** [collStats]: [avgObjSize] is absent for an empty collection. *)
Definition coll_stats (docs : list document) : document :=
  let n := Z.of_nat (length docs) in
  let base : document :=
    {[ "count" := VInt n; "size" := VInt (64 * n);
       "indexSizes" := VDict {[ "_id_" := VInt 4096 ]} ]} in
  if n =? 0 then base else <["avgObjSize" := VInt 64]> base.

Definition run_command (d : Database) (name collection : string) (w : world)
  : outcome document * world :=
  if server_up w then
    if String.eqb name "collStats" then (Return (coll_stats (docs_of w d collection)), w)
    else (Raise (Exn "OperationFailure" "no such command"), w)
  else (Raise unreachable, w).

Definition close (c : Client) (w : world) : outcome unit * world := (Return tt, w).

#[export] Instance ops : @PymongoOps driver := {|
  client_close := close;
  list_collection_names := list_names;
  db_create_collection := create;
  coll_insert_many := insert_many;
  coll_find_query := find_query;
  db_command := run_command
|}.

End MemMongoOps.

(** A counter as random source: every draw is the counter, which then
    moves on. *)
Module Counter.

Definition drawn (name : string) (r : N) (key : string) : value :=
  if String.eqb key "_id" then VObjectId r
  else if String.eqb key "email" then VStr "user@example.org"
  else VStr (name +:+ "." +:+ key).

#[export] Instance source : Randomness := {|
  Rng := N;
  draw_defaults := fun name r => (drawn name r, (r + 1)%N);
  randbelow := fun n r => ((N.to_nat r mod n)%nat, (r + 1)%N);
  randbelow_lt := fun n r Hn =>
    Nat.mod_upper_bound (N.to_nat r) n (Nat.neq_sym _ _ (Nat.lt_neq _ _ Hn));
  fresh_ObjectId := fun r => (r, (r + 1)%N);
  random_int := fun lo hi r => (lo + Z.of_N r mod (hi - lo + 1), (r + 1)%N);
  random_int_range := fun lo hi r Hle =>
    ltac:(pose proof (Z.mod_pos_bound (Z.of_N r) (hi - lo + 1)); simpl; lia)
|}.

End Counter.

(** A keyword order for the examples: the keywords come in the order of
    the parameters. *)
Module ParamOrder.

Definition first_named (params : list string) (kwargs : document) : option string :=
  List.find (fun name => bool_decide (is_Some (kwargs !! name))) params.

#[export] Instance order : KeywordOrder := {|
  first_bound := first_named;
  first_bound_Some := fun params kwargs name =>
    ltac:(intros [Hin Hb]%find_some; split;
          [by apply list_elem_of_In|by apply bool_decide_eq_true in Hb]);
  first_bound_None := fun params kwargs name =>
    ltac:(intros Hnone Hin%list_elem_of_In;
          pose proof (find_none _ _ Hnone name Hin) as Hb; simpl in Hb;
          apply bool_decide_eq_false in Hb; by apply eq_None_not_Some)
|}.

End ParamOrder.

Module ProvisionSamples.

(** The client of the command-line tool after a connect to [testdb]. *)
Definition cli : MongoDBClient.t :=
  {| MongoDBClient.client := Some {| client_uri := Samples.uri |};
     MongoDBClient.db := Some Samples.testdb;
     MongoDBClient.db_name := Some "testdb" |}.

(** The documents carry the identifiers [k], [k + 1] and so on, in this
    order. *)
Fixpoint ids_from (k : N) (docs : list document) : Prop :=
  match docs with
  | [] => True
  | doc :: rest => doc !! "_id" = Some (VObjectId k) /\ ids_from (k + 1) rest
  end.

(** Every document carries an identifier below [k]. *)
Definition ids_below (k : N) (docs : list document) : Prop :=
  Forall (fun doc => exists j, doc !! "_id" = Some (VObjectId j) /\ (j < k)%N) docs.

(** The in-memory server is up and the identifiers of the users it stores
    lie below the counter of the random source. *)
Definition healthy (r : N) (w : MemMongo.world) : Prop :=
  MemMongo.server_up w = true
  /\ ids_below r (MemMongo.docs_of w Samples.testdb "users").

(** A server that stores one user already. *)
Definition server : MemMongo.world :=
  MemMongo.up {[ "testdb.users" :=
                   [ {[ "_id" := VObjectId 3; "username" := VStr "ann" ]} ] ]}.

End ProvisionSamples.

(** What one operation of a batch becomes, read off its keys in the order
    the loop tests them: [insert_one] first, then [update_one], whose value
    holds a [filter] dictionary and an [update], then [delete_one], whose
    value is the filter dictionary; an operation with none of the three keys
    becomes nothing. *)
Inductive native_of (op : document) : option mongo_op -> Prop :=
| native_insert (doc : value) :
    op !! "insert_one" = Some doc ->
    native_of op (Some (InsertOne doc))
| native_update (u filter : document) (update : value) :
    op !! "insert_one" = None ->
    op !! "update_one" = Some (VDict u) ->
    u !! "filter" = Some (VDict filter) ->
    u !! "update" = Some update ->
    native_of op (Some (UpdateOne (VDict filter) {[ "$set" := update ]}))
| native_delete (filter : document) :
    op !! "insert_one" = None ->
    op !! "update_one" = None ->
    op !! "delete_one" = Some (VDict filter) ->
    native_of op (Some (DeleteOne (VDict filter)))
| native_nothing :
    op !! "insert_one" = None ->
    op !! "update_one" = None ->
    op !! "delete_one" = None ->
    native_of op None.

Module MixedBatch.
Import MemMongo.

Definition record8 : document := {[ "_id" := VInt 8; "k" := VInt 5 ]}.

(** An update, an operation with both [insert_one] and [delete_one], an
    operation with no known key, and a delete. *)
Definition operations : list document :=
  [ {[ "update_one" :=
         VDict {[ "filter" := VDict {[ "k" := VInt 1 ]};
                  "update" := VDict {[ "v" := VInt 2 ]} ]} ]};
    {[ "insert_one" := VDict record8; "delete_one" := VDict {[ "k" := VInt 5 ]} ]};
    {[ "replace_one" := VDict ∅ ]};
    {[ "delete_one" := VDict {[ "k" := VInt 1 ]} ]} ].

Definition natives : list (option mongo_op) :=
  [ Some (UpdateOne (VDict {[ "k" := VInt 1 ]}) {[ "$set" := VDict {[ "v" := VInt 2 ]} ]});
    Some (InsertOne (VDict record8));
    None;
    Some (DeleteOne (VDict {[ "k" := VInt 1 ]})) ].

(** A server whose collection [c] holds the record [{_id: 7, k: 1}]. *)
Definition server : world := up {[ "testdb.c" := [BulkSamples.record7] ]}.

End MixedBatch.

(** * Properties *)

(** ** Connection lifecycle *)

Section Lifecycle.
Context `{Pymongo}.

(** The state of the adapter is never consulted by [connect]: its outcome
    is that of a first connect. *)
Lemma connect_outcome_stateless (self : MongoDBAdapter) (cs : string)
    (options : document) :
  (connect self cs options).1 = (connect MongoDBAdapter_init cs options).1.
Proof.
  unfold connect.
  destruct (MongoClient cs options) as [c|e]; [|done].
  destruct (String.eqb (parse_db_name cs) ""); [done|].
  by destruct (client_getitem c (parse_db_name cs)).
Qed.

(** C4 (as the code has it): [connect] on an adapter that is already
    connected is not rejected.  Whenever the driver accepts the connection
    string and the string names a database, the call returns normally and
    leaves the adapter bound to the new client and database, exactly as a
    first [connect] on a fresh adapter does. *)
Theorem connect_again_rebinds (self : MongoDBAdapter) (cs : string)
    (options : document) (c : Client) (d : Database) :
  is_connected self = true ->
  MongoClient cs options = Return c ->
  parse_db_name cs <> "" ->
  client_getitem c (parse_db_name cs) = Return d ->
  connect self cs options =
    (Return tt, {| client := Some c; db := Some d; connection_string := Some cs |})
  /\ connect self cs options = connect MongoDBAdapter_init cs options.
Proof.
  intros _ Hc Hname Hd. unfold connect. rewrite Hc.
  destruct (String.eqb_spec (parse_db_name cs) "") as [E|_]; [by destruct Hname|].
  rewrite Hd. done.
Qed.

(** C6: [health_check] returns a boolean in every state of the adapter and
    of the server.  Before any connect ([db] is [None]) the attribute error
    is caught and the answer is [False]; after it, the answer is [True] when
    the ping returns and [False] when the ping raises. *)
Theorem health_check_never_raises (self : MongoDBAdapter) (w : World) :
  (health_check self w).1 =
    Return
      match db self with
      | None => false
      | Some d =>
          match (admin_command (db_client d) "ping" w).1 with
          | Return _ => true
          | Raise _ => false
          end
      end.
Proof.
  unfold health_check, try_except, bind, lift, ret, self_db_client.
  destruct (db self) as [d|]; [|done].
  by destruct (admin_command (db_client d) "ping" w) as [[[]|e] w'].
Qed.

End Lifecycle.

(** C4 (as stated) fails: the second [connect] of a connected adapter
    returns normally, with the adapter bound to the second database. *)
Lemma connect_twice_is_accepted :
  is_connected Samples.connected = true
  /\ @connect MemMongo.driver Samples.connected Samples.uri' ∅ =
       (Return tt,
        {| client := Some {| client_uri := Samples.uri' |};
           db := Some {| db_client := {| client_uri := Samples.uri' |};
                         db_name := "staging" |};
           connection_string := Some Samples.uri' |}).
Proof. split; vm_compute; reflexivity. Qed.

Lemma connect_again_rebinds_witness :
  @connect MemMongo.driver Samples.connected Samples.uri' ∅
  = @connect MemMongo.driver MongoDBAdapter_init Samples.uri' ∅.
Proof.
  apply (@connect_again_rebinds MemMongo.driver Samples.connected Samples.uri' ∅
           {| client_uri := Samples.uri' |}
           {| db_client := {| client_uri := Samples.uri' |}; db_name := "staging" |}).
  - vm_compute; reflexivity.
  - vm_compute; reflexivity.
  - vm_compute. discriminate.
  - vm_compute; reflexivity.
Defined.

(** ** The adapter factory *)

Section FactoryFacts.
Context `{Pymongo}.

Lemma adapters_lookup (k : string) :
  adapters !! k =
    if decide (k = "mongodb") then Some MongoDBAdapter_class
    else if decide (k = "postgresql") then Some PostgreSQLAdapter_class
    else None.
Proof.
  unfold adapters.
  destruct (decide (k = "mongodb")) as [->|Hm]; [by rewrite lookup_insert_eq|].
  rewrite lookup_insert_ne by done.
  destruct (decide (k = "postgresql")) as [->|Hp]; [by rewrite lookup_singleton_eq|].
  by rewrite lookup_singleton_ne.
Qed.

(** C5 (as the code has it): [name] being the lower-cased form of the
    identifier, [get_adapter] yields an adapter whose fields are all set, to
    [None], when [name] is a key of the registry, and otherwise raises a
    [ValueError] whose message is [Unknown database type: ] followed by the
    identifier as it was given; the server is untouched either way, as
    construction does no I/O. *)
Theorem get_adapter_registry (database_type name : string) (w : World) :
  lower database_type = name ->
  get_adapter database_type w =
    if decide (name = "mongodb") then
      (Return (Mongo {| client := None; db := None; connection_string := None |}), w)
    else if decide (name = "postgresql") then
      (Return (Postgres {| connection := None; cursor := None |}), w)
    else (Raise (Exn "ValueError" ("Unknown database type: " +:+ database_type)), w).
Proof.
  intros <-. unfold get_adapter. rewrite adapters_lookup.
  repeat case_decide; reflexivity.
Qed.

End FactoryFacts.

(** C5 (as stated) fails on an identifier that is not registered: the
    exception raised is a [ValueError], not an [UnsupportedBackendError]. *)
Lemma unknown_backend_raises_value_error :
  (@get_adapter MemMongo.driver "MySQL" MemMongo.down).1 =
    Raise (Exn "ValueError" "Unknown database type: MySQL")
  /\ (forall (a : DataAdapter), (@get_adapter MemMongo.driver "MySQL" MemMongo.down).1 <> Return a)
  /\ (forall msg : string,
        (@get_adapter MemMongo.driver "MySQL" MemMongo.down).1 <>
        Raise (Exn "UnsupportedBackendError" msg)).
Proof. split; [reflexivity|split; intros; vm_compute; discriminate]. Qed.

Lemma get_adapter_registry_witness :
  lower "MongoDB" = "mongodb"
  /\ @get_adapter MemMongo.driver "MongoDB" MemMongo.down =
       (Return (Mongo {| client := None; db := None; connection_string := None |}),
        MemMongo.down).
Proof.
  split; [reflexivity|].
  exact (@get_adapter_registry MemMongo.driver "MongoDB" "mongodb" MemMongo.down eq_refl).
Defined.

(** ** Bulk writes *)

(** The native operations follow the batch: a translated batch is the
    concatenation, in order, of what each operation translates to. *)
Lemma mongo_ops_in_batch_order (operations : list document) (ops : list mongo_op) :
  mongo_ops operations = Return ops ->
  exists os : list (option mongo_op),
    Forall2 (fun op o => translate_op op = Return o) operations os
    /\ ops = concat (option_list <$> os).
Proof.
  revert ops. induction operations as [|op rest IH]; intros ops Hops; simpl in Hops.
  - exists []. split; [constructor|]. by inversion Hops.
  - destruct (translate_op op) as [o|e] eqn:Hop; [|discriminate].
    destruct (mongo_ops rest) as [os'|e] eqn:Hrest; [|discriminate].
    destruct (IH os' eq_refl) as (os & HF & ->).
    exists (o :: os). split; [by constructor|].
    cbn in Hops. by inversion Hops.
Qed.

(** Selecting one variant commutes with flattening the translations: the
    native operations of a variant keep the relative order of the batch. *)
Lemma filter_variant_concat (variant : mongo_op -> bool) (os : list (option mongo_op)) :
  List.filter variant (concat (option_list <$> os)) =
  concat (option_list <$> List.filter (of_variant variant) os).
Proof.
  induction os as [|[op|] os IH]; [done| |exact IH].
  cbn. destruct (variant op); cbn; by rewrite IH.
Qed.

Lemma mongo_ops_app (l1 l2 : list document) (m1 m2 : list mongo_op) :
  mongo_ops l1 = Return m1 -> mongo_ops l2 = Return m2 ->
  mongo_ops (l1 ++ l2) = Return (m1 ++ m2).
Proof.
  revert m1. induction l1 as [|op rest IH]; intros m1 H1 H2; simpl in *.
  - by inversion H1.
  - destruct (translate_op op) as [o|e]; [|discriminate].
    destruct (mongo_ops rest) as [os|e]; [|discriminate].
    rewrite (IH os eq_refl H2). cbn in *. inversion H1.
    by rewrite app_assoc.
Qed.

(** The loop translates an operation to what its keys say. *)
Lemma translate_op_native (op : document) (o : option mongo_op) :
  native_of op o -> translate_op op = Return o.
Proof.
  unfold translate_op.
  destruct 1 as [doc Hi|u filter update Hi Hu Hf Hup|filter Hi Hu Hd|Hi Hu Hd].
  - by rewrite Hi.
  - rewrite Hi, Hu. simpl. by rewrite Hf, Hup.
  - by rewrite Hi, Hu, Hd.
  - by rewrite Hi, Hu, Hd.
Qed.

Lemma mongo_ops_native (operations : list document) (os : list (option mongo_op)) :
  Forall2 native_of operations os ->
  mongo_ops operations = Return (concat (option_list <$> os)).
Proof.
  induction 1 as [|op o rest os' Hop _ IH]; [done|].
  simpl. by rewrite (translate_op_native op o Hop), IH.
Qed.

Section BulkWrite.
Context `{Pymongo}.

(** C1 (as the code has it): [bulk_write] does not partition the batch.
    Each operation becomes what its keys say, [insert_one] being looked for
    first, then [update_one], then [delete_one]: one native insert, update
    (with the update wrapped in [$set]) or delete, or nothing when it has
    none of the three keys.  The native operations are kept in the order of
    the batch, across variants as well as within one, so the operations of
    each variant keep their relative order; a non-empty list is sent as a
    single native batch call, whose inserted, modified and deleted counts are
    returned as [{inserted, updated, deleted}]; an empty one makes no call
    and returns zeros. *)
Theorem bulk_write_single_ordered_call (self : MongoDBAdapter) (d : Database)
    (collection : string) (operations : list document)
    (os : list (option mongo_op)) (w : World) :
  db self = Some d ->
  Forall2 native_of operations os ->
  mongo_ops operations = Return (concat (option_list <$> os))
  /\ (forall variant,
        List.filter variant (concat (option_list <$> os)) =
        concat (option_list <$> List.filter (of_variant variant) os))
  /\ bulk_write self collection operations w =
       match concat (option_list <$> os) with
       | [] => (Return {| inserted := 0; updated := 0; deleted := 0 |}, w)
       | _ :: _ =>
           match coll_bulk_write d collection (concat (option_list <$> os)) w with
           | (Return result, w') =>
               (Return {| inserted := inserted_count result;
                          updated := modified_count result;
                          deleted := deleted_count result |}, w')
           | (Raise e, w') => (Raise e, w')
           end
       end.
Proof.
  intros Hdb Hnative.
  pose proof (mongo_ops_native operations os Hnative) as Hops.
  split; [exact Hops|]. split; [intros variant; apply filter_variant_concat|].
  unfold bulk_write, bind, lift, self_db_getitem. rewrite Hops, Hdb.
  destruct (concat (option_list <$> os)) as [|op ops']; [done|].
  by destruct (coll_bulk_write d collection (op :: ops') w) as [[result|e] w'].
Qed.

End BulkWrite.

(** C1 (as stated) fails on a delete followed by an insert of a matching
    record.  The adapter sends the delete first, so the record survives and
    nothing is deleted; executing the partitions Insert, Update, Delete
    would have removed the record just inserted. *)
Lemma bulk_write_keeps_batch_order :
  mongo_ops BulkSamples.delete_then_insert =
    Return [DeleteOne (VDict {[ "k" := VInt 1 ]}); InsertOne (VDict BulkSamples.record7)]
  /\ (let run := @bulk_write MemMongo.driver Samples.connected "c"
                   BulkSamples.delete_then_insert BulkSamples.empty_server in
      run.1 = Return {| inserted := 1; updated := 0; deleted := 0 |}
      /\ MemMongo.docs_of run.2 Samples.testdb "c" = [BulkSamples.record7])
  /\ (let run := @bulk_write_partitioned MemMongo.driver Samples.connected "c"
                   BulkSamples.delete_then_insert BulkSamples.empty_server in
      run.1 = Return {| inserted := 1; updated := 0; deleted := 1 |}
      /\ MemMongo.docs_of run.2 Samples.testdb "c" = []).
Proof. repeat split; vm_compute; reflexivity. Qed.

Lemma bulk_write_single_ordered_call_witness :
  mongo_ops MixedBatch.operations =
    Return [UpdateOne (VDict {[ "k" := VInt 1 ]}) {[ "$set" := VDict {[ "v" := VInt 2 ]} ]};
            InsertOne (VDict MixedBatch.record8);
            DeleteOne (VDict {[ "k" := VInt 1 ]})]
  /\ @bulk_write MemMongo.driver Samples.connected "c"
       MixedBatch.operations MixedBatch.server =
     (Return {| inserted := 1; updated := 1; deleted := 1 |},
      MemMongo.put_docs MixedBatch.server Samples.testdb "c" [MixedBatch.record8]).
Proof.
  destruct (@bulk_write_single_ordered_call MemMongo.driver Samples.connected
              Samples.testdb "c" MixedBatch.operations MixedBatch.natives
              MixedBatch.server) as (Hops & _ & Hrun).
  - vm_compute; reflexivity.
  - unfold MixedBatch.operations, MixedBatch.natives.
    constructor; [|constructor; [|constructor; [|constructor; [|constructor]]]].
    + apply (native_update _ {[ "filter" := VDict {[ "k" := VInt 1 ]};
                                "update" := VDict {[ "v" := VInt 2 ]} ]}
               {[ "k" := VInt 1 ]} (VDict {[ "v" := VInt 2 ]})); reflexivity.
    + apply native_insert; reflexivity.
    + apply native_nothing; reflexivity.
    + apply native_delete; reflexivity.
  - split; [exact Hops|]. rewrite Hrun. vm_compute. reflexivity.
Defined.

(** ** Masking *)

Section Masking.
Context `{Pymongo}.
Variables (d : Database) (collection field : string).
Variable mask_fn : value -> outcome value.

Local Abbreviation loop := (mask_loop d collection field mask_fn).

(** The loop over [pre ++ rest] is the loop over [pre] followed, unless it
    raised, by the loop over [rest] from the count and the server it left. *)
Lemma mask_loop_app (pre rest : list document) (n : Z) (w : World) :
  loop (pre ++ rest) n w =
    match loop pre n w with
    | (Return n', w') => loop rest n' w'
    | (Raise e, w') => (Raise e, w')
    end.
Proof.
  revert n w. induction pre as [|doc pre IH]; intros n w; [done|].
  simpl. destruct (doc !! field) as [v|]; [|apply IH].
  destruct (truthy v); [|apply IH].
  unfold bind, lift.
  destruct (mask_fn v) as [mv|e]; [|done].
  destruct (doc !! "_id") as [id|]; [|done].
  destruct (coll_update_one d collection _ _ w) as [[[]|e'] w']; [apply IH|done].
Qed.

(** A record whose field is missing or falsy leaves the loop as it found it. *)
Lemma mask_loop_skip (doc : document) (rest : list document) (n : Z) (w : World) :
  (forall v, doc !! field = Some v -> truthy v = false) ->
  loop (doc :: rest) n w = loop rest n w.
Proof.
  intros Hv. simpl. destruct (doc !! field) as [v|]; [|done].
  by rewrite (Hv v eq_refl).
Qed.

(** A record on which [mask_fn] raises ends the loop with that exception. *)
Lemma mask_loop_raise (doc : document) (rest : list document) (v : value)
    (e : exn) (n : Z) (w : World) :
  doc !! field = Some v -> truthy v = true -> mask_fn v = Raise e ->
  loop (doc :: rest) n w = (Raise e, w).
Proof.
  intros Hf Ht He. simpl. rewrite Hf, Ht. unfold bind, lift. by rewrite He.
Qed.

End Masking.

Section MaskField.
Context `{Pymongo}.

(** C3 (as the code has it): when [mask_fn] raises on a record, the
    exception it raised leaves [mask_field] at once and unchanged; the
    records after it are neither read by [mask_fn] nor updated, the updates
    made for the records before it stay on the server, and no count is
    returned. *)
Theorem mask_field_failure_aborts (self : MongoDBAdapter) (d : Database)
    (collection field : string) (mask_fn : value -> outcome value)
    (pre post : list document) (doc : document) (v : value) (e : exn)
    (n : Z) (w w0 w1 : World) :
  db self = Some d ->
  coll_find d collection w = (Return (pre ++ doc :: post), w0) ->
  mask_loop d collection field mask_fn pre 0 w0 = (Return n, w1) ->
  doc !! field = Some v -> truthy v = true -> mask_fn v = Raise e ->
  mask_field self collection field mask_fn w = (Raise e, w1)
  /\ returned_count (mask_field self collection field mask_fn w).1 = None.
Proof.
  intros Hdb Hfind Hpre Hf Ht He.
  assert (mask_field self collection field mask_fn w = (Raise e, w1)) as Hrun.
  { unfold mask_field, bind, lift, self_db_getitem. rewrite Hdb, Hfind.
    rewrite mask_loop_app, Hpre. by apply mask_loop_raise with v. }
  by rewrite Hrun.
Qed.

(** C10: a record whose target field holds a falsy value is skipped.  With
    such a record anywhere in the collection, [mask_field] runs exactly as
    on the collection without that record, and exactly as on the collection
    in which the record has no such field: whatever [mask_fn] is, it is not
    applied to the value, no update is issued and the count does not move.
    [0], [0.0], [False], [''], [[]] and [{}] are such values. *)
Theorem mask_field_skips_falsy (self : MongoDBAdapter) (d : Database)
    (collection field : string) (mask_fn : value -> outcome value)
    (pre post : list document) (doc : document) (v : value) (w w0 : World) :
  db self = Some d ->
  coll_find d collection w = (Return (pre ++ doc :: post), w0) ->
  doc !! field = Some v ->
  truthy v = false ->
  mask_field self collection field mask_fn w =
    mask_loop d collection field mask_fn (pre ++ post) 0 w0
  /\ mask_field self collection field mask_fn w =
       mask_loop d collection field mask_fn (pre ++ delete field doc :: post) 0 w0
  /\ Forall (fun x => truthy x = false)
       [VInt 0; VFloat 0%float; VBool false; VStr ""; VList []; VDict ∅].
Proof.
  intros Hdb Hfind Hf Hv.
  assert (mask_field self collection field mask_fn w =
          mask_loop d collection field mask_fn (pre ++ post) 0 w0) as Hrun.
  { unfold mask_field, bind, lift, self_db_getitem. rewrite Hdb, Hfind.
    rewrite !mask_loop_app.
    destruct (mask_loop d collection field mask_fn pre 0 w0) as [[n|e] w1]; [|done].
    apply mask_loop_skip. intros v' Hv'. congruence. }
  split; [exact Hrun|]. split.
  - rewrite Hrun, !mask_loop_app.
    destruct (mask_loop d collection field mask_fn pre 0 w0) as [[n|e] w1]; [|done].
    symmetry. apply mask_loop_skip. intros v'. by rewrite lookup_delete_eq.
  - repeat constructor.
Qed.

End MaskField.

(** C3 (as stated) fails: [mask_fn] raises on the second of three records.
    The first record has been masked on the server, the third has not, and
    what comes back is the exception alone, without the count 1. *)
Lemma mask_field_failure_loses_count :
  let run := @mask_field MemMongo.driver Samples.connected "people" "email"
               MaskSamples.redact
               (MaskSamples.people [MaskSamples.ann; MaskSamples.bob; MaskSamples.cyd]) in
  run.1 = Raise (ValueError "not an address")
  /\ returned_count run.1 = None
  /\ MemMongo.docs_of run.2 Samples.testdb "people" =
       [MaskSamples.ann_masked; MaskSamples.bob; MaskSamples.cyd].
Proof. repeat split; vm_compute; reflexivity. Qed.

Lemma mask_field_failure_aborts_witness :
  @mask_field MemMongo.driver Samples.connected "people" "email" MaskSamples.redact
    (MaskSamples.people [MaskSamples.ann; MaskSamples.bob; MaskSamples.cyd])
  = (Raise (ValueError "not an address"),
     MaskSamples.people [MaskSamples.ann_masked; MaskSamples.bob; MaskSamples.cyd]).
Proof.
  apply (@mask_field_failure_aborts MemMongo.driver Samples.connected Samples.testdb
           "people" "email" MaskSamples.redact
           [MaskSamples.ann] [MaskSamples.cyd] MaskSamples.bob (VStr "bob")
           (ValueError "not an address") 1
           (MaskSamples.people [MaskSamples.ann; MaskSamples.bob; MaskSamples.cyd])
           (MaskSamples.people [MaskSamples.ann; MaskSamples.bob; MaskSamples.cyd])
           (MaskSamples.people [MaskSamples.ann_masked; MaskSamples.bob; MaskSamples.cyd]));
    vm_compute; reflexivity.
Defined.

Lemma mask_field_skips_falsy_witness :
  @mask_field MemMongo.driver Samples.connected "people" "email" MaskSamples.redact
    (MaskSamples.people [MaskSamples.ann; MaskSamples.zero_score; MaskSamples.cyd])
  = (Return 2,
     MaskSamples.people
       [MaskSamples.ann_masked; MaskSamples.zero_score; MaskSamples.cyd_masked]).
Proof.
  destruct (@mask_field_skips_falsy MemMongo.driver Samples.connected Samples.testdb
              "people" "email" MaskSamples.redact
              [MaskSamples.ann] [MaskSamples.cyd] MaskSamples.zero_score (VInt 0)
              (MaskSamples.people [MaskSamples.ann; MaskSamples.zero_score; MaskSamples.cyd])
              (MaskSamples.people [MaskSamples.ann; MaskSamples.zero_score; MaskSamples.cyd]))
    as [Hrun _]; [vm_compute; reflexivity ..|].
  rewrite Hrun. vm_compute. reflexivity.
Defined.

(** ** Schema inference *)

Lemma classify_observable (v : value) (tag : string) :
  classify v = Some tag -> tag ∈ observable_tags.
Proof.
  unfold observable_tags.
  destruct v; simpl; intros [= <-]; set_solver.
Qed.

Lemma scan_types_fold (field_name tag : string) (docs : list document)
    (acc : gset string * bool) :
  tag ∈ (foldl (observe field_name) acc docs).1 <->
  tag ∈ acc.1 \/
  exists doc v, doc ∈ docs /\ doc !! field_name = Some v /\ classify v = Some tag.
Proof.
  revert acc. induction docs as [|doc docs IH]; intros acc; simpl.
  - split; [auto|]. intros [?|(doc & v & Hin & _)]; [done|]. by apply elem_of_nil in Hin.
  - rewrite IH. unfold observe.
    destruct (doc !! field_name) as [v|] eqn:Hv; [destruct (classify v) as [t|] eqn:Ht|];
      simpl; split.
    + intros [Hin|(doc' & v' & Hin & Hv' & Ht')].
      * apply elem_of_union in Hin as [?|Hin]; [by left|].
        apply elem_of_singleton in Hin as ->. right. exists doc, v. set_solver.
      * right. exists doc', v'. set_solver.
    + intros [?|(doc' & v' & Hin & Hv' & Ht')]; [set_solver|].
      apply elem_of_cons in Hin as [->|Hin].
      * left. rewrite Hv in Hv'. set_solver.
      * right. by exists doc', v'.
    + intros [?|(doc' & v' & Hin & Hv' & Ht')]; [by left|].
      right. exists doc', v'. set_solver.
    + intros [?|(doc' & v' & Hin & Hv' & Ht')]; [by left|].
      apply elem_of_cons in Hin as [->|Hin]; [congruence|].
      right. by exists doc', v'.
    + intros [?|(doc' & v' & Hin & Hv' & Ht')]; [by left|].
      right. exists doc', v'. set_solver.
    + intros [?|(doc' & v' & Hin & Hv' & Ht')]; [by left|].
      apply elem_of_cons in Hin as [->|Hin]; [congruence|].
      right. by exists doc', v'.
Qed.

Lemma scan_nullable_fold (field_name : string) (docs : list document)
    (acc : gset string * bool) :
  (foldl (observe field_name) acc docs).2 = true <->
  acc.2 = true \/ exists doc, doc ∈ docs /\ doc !! field_name = None.
Proof.
  revert acc. induction docs as [|doc docs IH]; intros acc; simpl.
  - split; [auto|]. intros [?|(doc & Hin & _)]; [done|]. by apply elem_of_nil in Hin.
  - rewrite IH. unfold observe.
    destruct (doc !! field_name) as [v|] eqn:Hv; [destruct (classify v) as [t|]|];
      simpl; split.
    + intros [?|(doc' & Hin & Hv')]; [by left|]. right. exists doc'. set_solver.
    + intros [?|(doc' & Hin & Hv')]; [by left|].
      apply elem_of_cons in Hin as [->|Hin]; [congruence|]. right. by exists doc'.
    + intros [?|(doc' & Hin & Hv')]; [by left|]. right. exists doc'. set_solver.
    + intros [?|(doc' & Hin & Hv')]; [by left|].
      apply elem_of_cons in Hin as [->|Hin]; [congruence|]. right. by exists doc'.
    + intros _. right. exists doc. set_solver.
    + auto.
Qed.

(** [types] holds exactly the tags of the values the field takes. *)
Lemma scan_field_types (field_name tag : string) (docs : list document) :
  tag ∈ (scan_field field_name docs).1 <->
  exists doc v, doc ∈ docs /\ doc !! field_name = Some v /\ classify v = Some tag.
Proof.
  unfold scan_field. rewrite scan_types_fold. simpl. set_solver.
Qed.

(** [nullable] is set exactly when some sampled record lacks the field. *)
Lemma scan_field_nullable (field_name : string) (docs : list document) :
  (scan_field field_name docs).2 = true <->
  exists doc, doc ∈ docs /\ doc !! field_name = None.
Proof.
  unfold scan_field. rewrite scan_nullable_fold. simpl. split; [|auto].
  by intros [?|?].
Qed.

Lemma field_names_fold (field_name : string) (docs : list document) (acc : gset string) :
  field_name ∈ foldl (fun names doc => names ∪ dom doc) acc docs <->
  field_name ∈ acc \/ exists doc, doc ∈ docs /\ is_Some (doc !! field_name).
Proof.
  revert acc. induction docs as [|doc docs IH]; intros acc; simpl.
  - split; [auto|]. intros [?|(doc & Hin & _)]; [done|]. by apply elem_of_nil in Hin.
  - rewrite IH, elem_of_union, elem_of_dom. split.
    + intros [[?|?]|(doc' & Hin & Hv)]; [by left| |].
      * right. exists doc. set_solver.
      * right. exists doc'. set_solver.
    + intros [?|(doc' & Hin & Hv)]; [by left; left|].
      apply elem_of_cons in Hin as [->|Hin]; [by left; right|].
      right. by exists doc'.
Qed.

Lemma all_field_names_spec (field_name : string) (docs : list document) :
  field_name ∈ all_field_names docs <->
  exists doc, doc ∈ docs /\ is_Some (doc !! field_name).
Proof.
  unfold all_field_names. rewrite field_names_fold. set_solver.
Qed.

Section InferenceFacts.
Context `{PySetOrder}.

Lemma set_iter_elem (s : gset string) (x : string) : x ∈ set_iter s <-> x ∈ s.
Proof. by rewrite (set_iter_perm s), elem_of_elements. Qed.

(** [field_type] never raises: it answers ['unknown'] for the empty set and
    a member of the set otherwise. *)
Lemma field_type_total (types : gset string) :
  exists ty, field_type types = Return ty
    /\ (types = ∅ /\ ty = "unknown" \/ ty ∈ types).
Proof.
  unfold field_type. case_bool_decide as Hempty.
  - exists "unknown". auto.
  - destruct (set_iter types) as [|tag rest] eqn:Hiter.
    + exfalso. apply Hempty. apply set_eq. intros x.
      rewrite <- set_iter_elem, Hiter. set_solver.
    + exists tag. split; [done|]. right.
      apply set_iter_elem. rewrite Hiter. set_solver.
Qed.

(** The loop over the field names returns, with an entry for each name
    other than ['_id'] and the other entries of [field_info] unchanged. *)
Lemma infer_fields_lookup (sample_docs : list document) (names : list string)
    (field_info : gmap string FieldSchema.t) :
  exists fi, infer_fields sample_docs names field_info = Return fi
    /\ forall f, fi !! f =
         if decide (f ∈ names /\ f <> "_id")
         then Some (inferred_field sample_docs f)
         else field_info !! f.
Proof.
  revert field_info. induction names as [|name rest IH]; intros field_info;
    cbn [infer_fields].
  - exists field_info. split; [done|]. intros f. case_decide as Hf; [|done].
    destruct Hf as [Hin _]. by apply elem_of_nil in Hin.
  - destruct (String.eqb_spec name "_id") as [->|Hname].
    + destruct (IH field_info) as (fi & -> & Hfi). exists fi. split; [done|].
      intros f. rewrite Hfi. repeat case_decide; set_solver.
    + destruct (scan_field name sample_docs) as [types nullable] eqn:Hscan.
      destruct (field_type_total types) as (ty & Hty & _).
      rewrite Hty. cbn.
      destruct (IH (<[name:=new_FieldSchema name ty nullable]> field_info))
        as (fi & -> & Hfi).
      exists fi. split; [done|]. intros f. rewrite Hfi.
      assert (new_FieldSchema name ty nullable = inferred_field sample_docs name) as Hfs.
      { unfold inferred_field, inferred_type. by rewrite Hscan; simpl; rewrite Hty. }
      destruct (decide (f = name)) as [->|Hne].
      * rewrite lookup_insert_eq, Hfs. repeat case_decide; set_solver.
      * rewrite lookup_insert_ne by done. repeat case_decide; set_solver.
Qed.

(** [infer_schema] returns, and its field mapping has exactly the fields
    named in some sampled record, the primary key apart. *)
Lemma infer_schema_fields (collection : string) (sample_docs : list document) :
  exists fi,
    infer_schema collection sample_docs = Return (new_DocumentSchema collection fi)
    /\ forall f, fi !! f =
         if decide (f ∈ all_field_names sample_docs /\ f <> "_id")
         then Some (inferred_field sample_docs f)
         else None.
Proof.
  unfold infer_schema. case_bool_decide as Hempty.
  - exists ∅. split; [done|]. intros f. subst. rewrite lookup_empty.
    case_decide as Hf; [|done]. destruct Hf as [Hin _]. set_solver.
  - destruct (infer_fields_lookup sample_docs
                (set_iter (all_field_names sample_docs)) ∅) as (fi & -> & Hfi).
    exists fi. split; [done|]. intros f. rewrite Hfi, lookup_empty.
    repeat case_decide; try done; exfalso; rewrite set_iter_elem in *; tauto.
Qed.

End InferenceFacts.

Section GetSchema.
Context `{Pymongo} `{PySetOrder}.

Lemma get_schema_run (self : MongoDBAdapter) (d : Database) (collection : string)
    (sample_size : Z) (docs : list document) (w w' : World) :
  db self = Some d ->
  coll_find d collection w = (Return docs, w') ->
  get_schema self collection sample_size w =
    (infer_schema collection (cursor_limit sample_size docs), w').
Proof.
  intros Hdb Hfind. unfold get_schema, bind, lift, self_db_getitem.
  by rewrite Hdb, Hfind.
Qed.

Lemma inferred_type_cases (sample_docs : list document) (f : string) :
  (forall tag, ~ observed sample_docs f tag) /\ inferred_type sample_docs f = "unknown"
  \/ observed sample_docs f (inferred_type sample_docs f).
Proof.
  unfold inferred_type.
  destruct (field_type_total (scan_field f sample_docs).1) as (ty & -> & [[He ->]|Hin]).
  - left. split; [|done]. intros tag Hobs.
    apply scan_field_types in Hobs. rewrite He in Hobs. set_solver.
  - right. by apply scan_field_types.
Qed.

(** C7: on a collection with no record, whatever the sample size,
    [get_schema] returns the schema with an empty field mapping. *)
Theorem get_schema_empty_collection (self : MongoDBAdapter) (d : Database)
    (collection : string) (sample_size : Z) (w w' : World) :
  db self = Some d ->
  coll_find d collection w = (Return [], w') ->
  get_schema self collection sample_size w =
    (Return {| DocumentSchema.name := collection;
               DocumentSchema.fields := ∅;
               DocumentSchema.primary_key := "_id" |}, w').
Proof.
  intros Hdb Hfind. rewrite (get_schema_run self d collection sample_size [] w w') by done.
  unfold cursor_limit. rewrite take_nil. by destruct (sample_size =? 0).
Qed.


(** C8: the nullable flag of every field of the returned schema is true
    exactly when some sampled record lacks the field; and a field that
    holds an integer in every sampled record is reported with type
    ['integer'] and [nullable=False]. *)
Theorem get_schema_nullable (self : MongoDBAdapter) (d : Database)
    (collection : string) (sample_size : Z) (docs : list document) (w w' : World) :
  db self = Some d ->
  coll_find d collection w = (Return docs, w') ->
  exists schema,
    get_schema self collection sample_size w = (Return schema, w')
    /\ (forall f fs,
          DocumentSchema.fields schema !! f = Some fs ->
          FieldSchema.nullable fs = true <->
          exists doc, doc ∈ cursor_limit sample_size docs /\ doc !! f = None)
    /\ (forall f,
          f <> "_id" ->
          cursor_limit sample_size docs <> [] ->
          (forall doc, doc ∈ cursor_limit sample_size docs ->
                       exists k, doc !! f = Some (VInt k)) ->
          DocumentSchema.fields schema !! f =
            Some {| FieldSchema.name := f; FieldSchema.type := "integer";
                    FieldSchema.nullable := false; FieldSchema.indexed := false;
                    FieldSchema.unique := false; FieldSchema.reference := None |}).
Proof.
  intros Hdb Hfind.
  rewrite (get_schema_run self d collection sample_size docs w w') by done.
  set (sample := cursor_limit sample_size docs) in *.
  destruct (infer_schema_fields collection sample) as (fi & -> & Hfi).
  exists (new_DocumentSchema collection fi). split; [done|]. simpl. split.
  - intros f fs. rewrite Hfi. case_decide; [|done]. intros [= <-].
    simpl. apply scan_field_nullable.
  - intros f Hid Hne Hint.
    destruct sample as [|doc0 rest] eqn:Hsample; [done|]. rewrite <- Hsample in *.
    assert (doc0 ∈ sample) as Hdoc0 by (rewrite Hsample; set_solver).
    destruct (Hint doc0 Hdoc0) as (k0 & Hk0).
    rewrite Hfi. rewrite decide_True.
    2:{ split; [|done]. apply all_field_names_spec. exists doc0. by rewrite Hk0. }
    f_equal. unfold inferred_field, new_FieldSchema. f_equal.
    + destruct (inferred_type_cases sample f) as [[Hnone _]|Hobs].
      * destruct (Hnone "integer"). by exists doc0, (VInt k0).
      * destruct Hobs as (doc & v & Hin & Hv & Hc).
        destruct (Hint doc Hin) as (k & Hk). rewrite Hk in Hv.
        injection Hv as <-. simpl in Hc. by injection Hc as <-.
    + apply not_true_is_false. rewrite scan_field_nullable.
      intros (doc & Hin & Hnone). destruct (Hint doc Hin) as (k & Hk). congruence.
Qed.

(** C9 (as the code has it): the type of every field of the returned
    schema is one of string, integer, float, boolean, date, object, array,
    objectid and unknown. *)
Theorem get_schema_type_tags (self : MongoDBAdapter) (d : Database)
    (collection : string) (sample_size : Z) (docs : list document) (w w' : World) :
  db self = Some d ->
  coll_find d collection w = (Return docs, w') ->
  exists schema,
    get_schema self collection sample_size w = (Return schema, w')
    /\ forall f fs,
         DocumentSchema.fields schema !! f = Some fs ->
         FieldSchema.type fs ∈ source_type_tags.
Proof.
  intros Hdb Hfind.
  rewrite (get_schema_run self d collection sample_size docs w w') by done.
  set (sample := cursor_limit sample_size docs) in *.
  destruct (infer_schema_fields collection sample) as (fi & -> & Hfi).
  exists (new_DocumentSchema collection fi). split; [done|]. simpl.
  intros f fs. rewrite Hfi. case_decide; [|done]. intros [= <-]. simpl.
  destruct (inferred_type_cases sample f) as [[_ ->]|(doc & v & _ & _ & Hc)].
  - unfold source_type_tags. set_solver.
  - apply classify_observable in Hc. revert Hc.
    generalize (inferred_type sample f). intros tag.
    unfold observable_tags, source_type_tags. set_solver.
Qed.

End GetSchema.



Lemma get_schema_empty_collection_witness :
  @get_schema MemMongo.driver MemMongo.ascending Samples.connected "items" 10
    (SchemaSamples.items [])
  = (Return {| DocumentSchema.name := "items";
               DocumentSchema.fields := ∅;
               DocumentSchema.primary_key := "_id" |},
     SchemaSamples.items []).
Proof.
  apply (@get_schema_empty_collection MemMongo.driver MemMongo.ascending
           Samples.connected Samples.testdb "items" 10);
    vm_compute; reflexivity.
Defined.

Lemma get_schema_nullable_witness :
  exists schema,
    @get_schema MemMongo.driver MemMongo.ascending Samples.connected "items" 10
      (SchemaSamples.items SchemaSamples.counted)
    = (Return schema, SchemaSamples.items SchemaSamples.counted)
    /\ FieldSchema.nullable <$> DocumentSchema.fields schema !! "tag" = Some true
    /\ DocumentSchema.fields schema !! "n" = Some (new_FieldSchema "n" "integer" false).
Proof.
  destruct (@get_schema_nullable MemMongo.driver MemMongo.ascending Samples.connected
              Samples.testdb "items" 10 SchemaSamples.counted
              (SchemaSamples.items SchemaSamples.counted)
              (SchemaSamples.items SchemaSamples.counted))
    as (schema & Hrun & _ & _); [vm_compute; reflexivity ..|].
  exists schema. split; [exact Hrun|].
  vm_compute in Hrun. injection Hrun as <-. split; vm_compute; reflexivity.
Defined.

(** C9 (as stated) fails: a field holding an [ObjectId] is reported with
    the tag ['objectid'], which is not one of the listed tags. *)
Lemma objectid_tag_not_listed :
  reported_type
    (@get_schema MemMongo.driver MemMongo.ascending Samples.connected "items" 10
       (SchemaSamples.items SchemaSamples.owned)).1 "owner" = Some "objectid"
  /\ "objectid" ∉ spec_type_tags.
Proof.
  split; [vm_compute; reflexivity|].
  unfold spec_type_tags. intros Hin.
  repeat (apply elem_of_cons in Hin as [?|Hin]; [discriminate|]).
  by apply elem_of_nil in Hin.
Qed.

Lemma get_schema_type_tags_witness :
  exists schema,
    @get_schema MemMongo.driver MemMongo.ascending Samples.connected "items" 10
      (SchemaSamples.items SchemaSamples.owned)
    = (Return schema, SchemaSamples.items SchemaSamples.owned)
    /\ forall f fs,
         DocumentSchema.fields schema !! f = Some fs ->
         FieldSchema.type fs ∈ source_type_tags.
Proof.
  apply (@get_schema_type_tags MemMongo.driver MemMongo.ascending Samples.connected
           Samples.testdb "items" 10 SchemaSamples.owned);
    vm_compute; reflexivity.
Defined.

(** * Further properties of the code *)

(** ** Connection strings *)

Lemma contains_cons (c a : ascii) (s : string) :
  contains c (String a s) = Ascii.eqb c a || contains c s.
Proof. reflexivity. Qed.

(** No part of [s.split(sep)] holds the separator. *)
Lemma split_no_sep (sep : ascii) (s : string) :
  Forall (fun part => contains sep part = false) (split sep s).
Proof.
  induction s as [|c s IH]; simpl; [by repeat constructor|].
  destruct (split sep s) as [|w ws]; [by repeat constructor|].
  apply Forall_cons in IH as [Hw Hws].
  destruct (Ascii.eqb_spec c sep) as [->|Hne].
  - by repeat constructor.
  - constructor; [|done]. rewrite contains_cons, Hw.
    destruct (Ascii.eqb_spec sep c); [congruence|done].
Qed.

(** Every character of a part of [s.split(sep)] is a character of [s]. *)
Lemma split_chars (sep c : ascii) (s : string) :
  Forall (fun part => contains c part = true -> contains c s = true) (split sep s).
Proof.
  induction s as [|a s IH]; simpl; [by repeat constructor|].
  destruct (split sep s) as [|w ws]; [by repeat constructor|].
  apply Forall_cons in IH as [Hw Hws].
  assert (Forall (fun part => contains c part = true -> contains c (String a s) = true)
            (w :: ws)) as Hall.
  { constructor.
    - intros Hc. rewrite contains_cons, (Hw Hc). apply orb_true_r.
    - eapply Forall_impl; [exact Hws|]. simpl. intros part Hp Hc.
      rewrite contains_cons, (Hp Hc). apply orb_true_r. }
  destruct (Ascii.eqb c sep); [destruct (Ascii.eqb a sep)|destruct (Ascii.eqb a sep)].
  all: try (constructor; [done|exact Hall]).
  all: apply Forall_cons in Hall as [Hw' Hws']; constructor; [|done].
  all: rewrite !contains_cons; intros Hc; apply orb_true_iff in Hc as [Hc|Hc];
    [by rewrite Hc|rewrite (Hw Hc); apply orb_true_r].
Qed.

(** X1: the database name [connect] reads off a connection string never
    holds a slash or a question mark, whatever the string. *)
Theorem parse_db_name_clean (connection_string : string) :
  contains "/" (parse_db_name connection_string) = false
  /\ contains "?" (parse_db_name connection_string) = false.
Proof.
  unfold parse_db_name.
  set (tail := default "" (last (split "/" connection_string))).
  assert (contains "/" tail = false) as Htail.
  { unfold tail. destruct (last (split "/" connection_string)) as [t|] eqn:Hlast; [|done].
    apply last_Some in Hlast as [l' Hl'].
    pose proof (split_no_sep "/" connection_string) as Hall.
    rewrite Hl' in Hall. apply Forall_app in Hall as [_ Hall].
    by apply Forall_cons in Hall as [Ht _]. }
  pose proof (split_no_sep "?" tail) as Hq.
  pose proof (split_chars "?" "/" tail) as Hs.
  destruct (split "?" tail) as [|h rest]; [done|]. simpl.
  apply Forall_cons in Hq as [Hq _]. apply Forall_cons in Hs as [Hs _].
  split; [|done].
  destruct (contains "/" h) eqn:Hh; [|done]. rewrite (Hs eq_refl) in Htail. done.
Qed.

Section ConnectFailure.
Context `{Pymongo}.

(** X2: a [connect] that raises never rebinds the database: the adapter
    keeps the [db] and the [connection_string] it had.  Its [client] is the
    new client as soon as the driver has built one, so that after a failed
    second connect the adapter holds a client its database does not belong
    to. *)
Theorem connect_failure_keeps_db (self : MongoDBAdapter) (cs : string)
    (options : document) (e : exn) :
  (connect self cs options).1 = Raise e ->
  db (connect self cs options).2 = db self
  /\ connection_string (connect self cs options).2 = connection_string self
  /\ client (connect self cs options).2 =
       match MongoClient cs options with
       | Return c => Some c
       | Raise _ => client self
       end.
Proof.
  unfold connect. destruct (MongoClient cs options) as [c|e0]; [|done].
  destruct (String.eqb (parse_db_name cs) ""); [done|].
  by destruct (client_getitem c (parse_db_name cs)).
Qed.

End ConnectFailure.

Lemma connect_failure_keeps_db_witness :
  db (@connect MemMongo.driver Samples.connected "mongodb://replica:27017/" ∅).2
    = Some Samples.testdb
  /\ connection_string
       (@connect MemMongo.driver Samples.connected "mongodb://replica:27017/" ∅).2
     = Some Samples.uri
  /\ client (@connect MemMongo.driver Samples.connected "mongodb://replica:27017/" ∅).2
     = Some {| client_uri := "mongodb://replica:27017/" |}.
Proof.
  apply (@connect_failure_keeps_db MemMongo.driver Samples.connected
           "mongodb://replica:27017/" ∅
           (ValueError "Database name not found in connection string")).
  vm_compute. reflexivity.
Defined.

(** ** Before connect *)

Section BeforeConnect.
Context `{PymongoOps} `{PySetOrder}.

(** X3: on an adapter whose [db] is [None] (never connected, or only
    through connects that failed) no data method reaches the server: each
    raises the error of using [None] and leaves the server as it is.
    [health_check] answers [False], and inserting an empty list still
    returns 0. *)
Theorem before_connect_no_server_call (self : MongoDBAdapter) :
  db self = None ->
  (forall collection operations ops w,
      mongo_ops operations = Return ops -> ops <> [] ->
      bulk_write self collection operations w = (Raise not_subscriptable, w))
  /\ (forall collection field mask_fn w,
        mask_field self collection field mask_fn w = (Raise not_subscriptable, w))
  /\ (forall collection sample_size w,
        get_schema self collection sample_size w = (Raise not_subscriptable, w))
  /\ (forall collection documents w,
        documents <> [] ->
        insert_documents self collection documents w = (Raise not_subscriptable, w))
  /\ (forall collection query limit skip w,
        find_documents self collection query limit skip w
        = (Raise not_subscriptable, w))
  /\ (forall collection w,
        get_collection_stats self collection w = (Raise (no_attribute "command"), w))
  /\ (forall collection_name schema w,
        create_collection self collection_name schema w
        = (Raise (no_attribute "list_collection_names"), w))
  /\ (forall w, health_check self w = (Return false, w))
  /\ (forall collection w, insert_documents self collection [] w = (Return 0, w)).
Proof.
  intros Hdb. repeat split.
  - intros collection operations ops w Hops Hne.
    unfold bulk_write, bind, lift, self_db_getitem. rewrite Hops, Hdb.
    by destruct ops.
  - intros. unfold mask_field, bind, lift, self_db_getitem. by rewrite Hdb.
  - intros. unfold get_schema, bind, lift, self_db_getitem. by rewrite Hdb.
  - intros collection documents w Hne.
    unfold insert_documents, bind, lift, self_db_getitem. rewrite Hdb.
    by destruct documents.
  - intros. unfold find_documents, bind, lift, self_db_getitem. by rewrite Hdb.
  - intros. unfold get_collection_stats, bind, lift, self_db_attr. by rewrite Hdb.
  - intros. unfold create_collection, bind, lift, self_db_attr. by rewrite Hdb.
  - intros. unfold health_check, try_except, bind, lift, ret, self_db_client.
    by rewrite Hdb.
Qed.

Lemma mongo_ops_unrecognised (operations : list document) :
  Forall unrecognised operations -> mongo_ops operations = Return [].
Proof.
  induction 1 as [|op rest (Hi & Hu & Hd) _ IH]; [done|].
  simpl. unfold translate_op. by rewrite Hi, Hu, Hd, IH.
Qed.

(** X4: a batch none of whose operations carries [insert_one],
    [update_one] or [delete_one] (the empty batch among them) returns
    [{inserted: 0, updated: 0, deleted: 0}] without a call to the server,
    on any adapter, connected or not. *)
Theorem bulk_write_unrecognised_is_noop (self : MongoDBAdapter) (collection : string)
    (operations : list document) (w : World) :
  Forall unrecognised operations ->
  bulk_write self collection operations w =
    (Return {| inserted := 0; updated := 0; deleted := 0 |}, w).
Proof.
  intros Hops. unfold bulk_write, bind, lift.
  by rewrite (mongo_ops_unrecognised operations Hops).
Qed.

End BeforeConnect.

Lemma before_connect_no_server_call_witness :
  @health_check MemMongo.driver MongoDBAdapter_init (MemMongo.up ∅)
    = (Return false, MemMongo.up ∅)
  /\ @get_schema MemMongo.driver MemMongo.ascending MongoDBAdapter_init "items" 10
       (MemMongo.up ∅) = (Raise not_subscriptable, MemMongo.up ∅).
Proof.
  destruct (@before_connect_no_server_call MemMongo.driver MemMongoOps.ops
              MemMongo.ascending MongoDBAdapter_init)
    as (_ & _ & Hschema & _ & _ & _ & _ & Hhealth & _); [reflexivity|].
  split; [apply Hhealth|apply Hschema].
Defined.

Lemma bulk_write_unrecognised_is_noop_witness :
  @bulk_write MemMongo.driver MongoDBAdapter_init "items"
    [ {[ "replace_one" := VDict ∅ ]}; ∅ ] MemMongo.down
  = (Return {| inserted := 0; updated := 0; deleted := 0 |}, MemMongo.down).
Proof.
  apply (@bulk_write_unrecognised_is_noop MemMongo.driver).
  repeat constructor.
Defined.

(** ** Diagnostics, queries and statistics *)

Section Queries.
Context `{PymongoOps}.

(** X5: [validate_connection] never raises and its flag is the answer of
    [health_check] in the same state, which both leave as the ping left it.
    Without a database handle the flag is [False] and the message carries
    the text of the attribute error; with one, a ping that returns gives
    [True] and a message that names the database, and a ping that raises
    gives [False] and a message that carries the text of that very
    exception. *)
Theorem validate_connection_agrees (self : MongoDBAdapter) (w : World) :
  match db self with
  | None =>
      health_check self w = (Return false, w)
      /\ validate_connection self w =
           (Return (false, "MongoDB connection failed: 'NoneType' object has no attribute 'client'"), w)
  | Some d =>
      match admin_command (db_client d) "ping" w with
      | (Return _, w') =>
          health_check self w = (Return true, w')
          /\ validate_connection self w =
               (Return (true, "Connected to MongoDB: " +:+ db_name d), w')
      | (Raise e, w') =>
          health_check self w = (Return false, w')
          /\ validate_connection self w =
               (Return (false, "MongoDB connection failed: " +:+ exn_msg e), w')
      end
  end.
Proof.
  unfold health_check, validate_connection, try_except, bind, lift, ret,
    self_db_client, self_db_attr.
  destruct (db self) as [d|] eqn:Hdb; [|done].
  by destruct (admin_command (db_client d) "ping" w) as [[[]|e] w'].
Qed.

Lemma find_documents_run (self : MongoDBAdapter) (d : Database)
    (collection : string) (query : option document) (limit skip : Z)
    (docs : list document) (w w' : World) :
  db self = Some d ->
  0 <= skip ->
  coll_find_query d collection (default ∅ query) w = (Return docs, w') ->
  find_documents self collection query limit skip w =
    (Return (if 0 <? limit
             then take (Z.to_nat limit) (drop (Z.to_nat skip) docs)
             else drop (Z.to_nat skip) docs), w').
Proof.
  intros Hdb Hskip Hfind.
  unfold find_documents, bind, lift, ret, self_db_getitem, check_skip.
  rewrite Hdb. destruct (Z.ltb_spec skip 0) as [?|_]; [lia|].
  by rewrite Hfind.
Qed.

(** X6: [find_documents] skips [skip] of the matching documents and then
    returns at most [limit] of them when [limit] is positive; a zero or
    negative limit returns all the rest. *)
Theorem find_documents_window (self : MongoDBAdapter) (d : Database)
    (collection : string) (query : option document) (limit skip : Z)
    (docs : list document) (w w' : World) :
  db self = Some d ->
  0 <= skip ->
  coll_find_query d collection (default ∅ query) w = (Return docs, w') ->
  exists page,
    find_documents self collection query limit skip w = (Return page, w')
    /\ (limit <= 0 -> page = drop (Z.to_nat skip) docs)
    /\ (0 < limit ->
        page = take (Z.to_nat limit) (drop (Z.to_nat skip) docs)
        /\ Z.of_nat (length page) <= limit).
Proof.
  intros Hdb Hskip Hfind.
  rewrite (find_documents_run self d collection query limit skip docs w w') by done.
  eexists. split; [done|]. split.
  - intros Hl. by destruct (Z.ltb_spec 0 limit) as [?|_]; [lia|].
  - intros Hl. destruct (Z.ltb_spec 0 limit) as [_|?]; [|lia].
    split; [done|]. rewrite length_take. lia.
Qed.

(** X7: consecutive pages join up.  While the server answers the query
    with the same documents, the page of [l1] documents at [skip] followed
    by the page of [l2] documents at [skip + l1] is the page of [l1 + l2]
    documents at [skip]. *)
Theorem find_documents_pagination (self : MongoDBAdapter) (d : Database)
    (collection : string) (query : option document) (l1 l2 skip : Z)
    (docs : list document) (w : World) :
  db self = Some d ->
  0 <= skip -> 0 < l1 -> 0 < l2 ->
  coll_find_query d collection (default ∅ query) w = (Return docs, w) ->
  exists p1 p2,
    find_documents self collection query l1 skip w = (Return p1, w)
    /\ find_documents self collection query l2 (skip + l1) w = (Return p2, w)
    /\ find_documents self collection query (l1 + l2) skip w = (Return (p1 ++ p2), w).
Proof.
  intros Hdb Hskip H1 H2 Hfind.
  rewrite (find_documents_run self d collection query l1 skip docs w w),
    (find_documents_run self d collection query l2 (skip + l1) docs w w),
    (find_documents_run self d collection query (l1 + l2) skip docs w w)
    by (done || lia).
  destruct (Z.ltb_spec 0 l1) as [_|?]; [|lia].
  destruct (Z.ltb_spec 0 l2) as [_|?]; [|lia].
  destruct (Z.ltb_spec 0 (l1 + l2)) as [_|?]; [|lia].
  eexists _, _. split; [done|]. split; [done|]. do 2 f_equal.
  rewrite !Z2Nat.inj_add by lia.
  rewrite <- drop_drop. by rewrite take_take_drop.
Qed.

(** X8: [create_collection] on a name the database already lists creates
    nothing, whatever the schema; and an empty schema dictionary counts as
    no schema. *)
Theorem create_collection_idempotent (self : MongoDBAdapter) (d : Database)
    (collection_name : string) (schema : option document) (names : list string)
    (w w' : World) :
  db self = Some d ->
  list_collection_names d w = (Return names, w') ->
  collection_name ∈ names ->
  create_collection self collection_name schema w = (Return tt, w')
  /\ forall name w0,
       create_collection self name (Some ∅) w0 = create_collection self name None w0.
Proof.
  intros Hdb Hlist Hin. split.
  - unfold create_collection, bind, lift, self_db_attr. rewrite Hdb, Hlist.
    by rewrite bool_decide_eq_true_2.
  - intros name w0. unfold create_collection, bind, lift, self_db_attr. by rewrite Hdb.
Qed.

(** X9: the statistics [get_collection_stats] returns have exactly the keys
    [count], [size], [avg_doc_size] and [indexes], each statistic the
    server omits being 0 and [indexes] the number of index sizes.  A caller
    that asks the result for [size_bytes], [size_mb] or [documents], as the
    quick-start test does, only ever gets its own fallback. *)
Theorem get_collection_stats_keys (self : MongoDBAdapter) (d : Database)
    (collection : string) (stats sizes : document) (w w' : World) :
  db self = Some d ->
  db_command d "collStats" collection w = (Return stats, w') ->
  default (VDict ∅) (stats !! "indexSizes") = VDict sizes ->
  exists r : document,
    get_collection_stats self collection w = (Return r, w')
    /\ dom r = ({[ "count"; "size"; "avg_doc_size"; "indexes" ]} : gset string)
    /\ r !! "count" = Some (dict_get stats "count" (VInt 0))
    /\ r !! "size" = Some (dict_get stats "size" (VInt 0))
    /\ r !! "avg_doc_size" = Some (dict_get stats "avgObjSize" (VInt 0))
    /\ r !! "indexes" = Some (VInt (Z.of_nat (size sizes)))
    /\ dict_get r "size_bytes" (VInt 0) = VInt 0
    /\ (forall fallback, dict_get r "size_mb" fallback = fallback)
    /\ dict_get r "count" (dict_get r "documents" (VInt 0))
       = dict_get stats "count" (VInt 0).
Proof.
  intros Hdb Hcmd Hsizes.
  unfold get_collection_stats, bind, lift, ret, self_db_attr.
  rewrite Hdb, Hcmd, Hsizes. simpl.
  eexists. split; [done|]. unfold dict_get.
  split; [by rewrite !dom_insert_L, dom_singleton_L; set_solver|].
  repeat split; intros; by simplify_map_eq.
Qed.

End Queries.

Lemma find_documents_window_witness :
  exists page,
    @find_documents MemMongo.driver MemMongoOps.ops Samples.connected "items" None 1 1
      (SchemaSamples.items SchemaSamples.counted)
    = (Return page, SchemaSamples.items SchemaSamples.counted)
    /\ (1 <= 0 -> page = drop (Z.to_nat 1) SchemaSamples.counted)
    /\ (0 < 1 ->
        page = take (Z.to_nat 1) (drop (Z.to_nat 1) SchemaSamples.counted)
        /\ Z.of_nat (length page) <= 1).
Proof.
  apply (@find_documents_window MemMongo.driver MemMongoOps.ops Samples.connected
           Samples.testdb "items" None 1 1 SchemaSamples.counted).
  - vm_compute; reflexivity.
  - lia.
  - vm_compute; reflexivity.
Defined.

Lemma find_documents_pagination_witness :
  exists p1 p2,
    @find_documents MemMongo.driver MemMongoOps.ops Samples.connected "items" None 1 0
      (SchemaSamples.items SchemaSamples.counted)
    = (Return p1, SchemaSamples.items SchemaSamples.counted)
    /\ @find_documents MemMongo.driver MemMongoOps.ops Samples.connected "items" None
         1 (0 + 1) (SchemaSamples.items SchemaSamples.counted)
       = (Return p2, SchemaSamples.items SchemaSamples.counted)
    /\ @find_documents MemMongo.driver MemMongoOps.ops Samples.connected "items" None
         (1 + 1) 0 (SchemaSamples.items SchemaSamples.counted)
       = (Return (p1 ++ p2), SchemaSamples.items SchemaSamples.counted).
Proof.
  apply (@find_documents_pagination MemMongo.driver MemMongoOps.ops Samples.connected
           Samples.testdb "items" None 1 1 0 SchemaSamples.counted).
  - vm_compute; reflexivity.
  - lia.
  - lia.
  - lia.
  - vm_compute; reflexivity.
Defined.

Lemma create_collection_idempotent_witness :
  @create_collection MemMongo.driver MemMongoOps.ops Samples.connected "items"
    (Some {[ "bsonType" := VStr "object" ]}) (SchemaSamples.items [])
  = (Return tt, SchemaSamples.items []).
Proof.
  apply (@create_collection_idempotent MemMongo.driver MemMongoOps.ops Samples.connected
           Samples.testdb "items" (Some {[ "bsonType" := VStr "object" ]}) ["items"]).
  - vm_compute; reflexivity.
  - vm_compute; reflexivity.
  - apply list_elem_of_here.
Defined.

Lemma get_collection_stats_keys_witness :
  exists r : document,
    @get_collection_stats MemMongo.driver MemMongoOps.ops Samples.connected "items"
      (SchemaSamples.items [])
    = (Return r, SchemaSamples.items [])
    /\ r !! "avg_doc_size" = Some (VInt 0)
    /\ r !! "indexes" = Some (VInt 1)
    /\ dict_get r "size_bytes" (VInt 0) = VInt 0.
Proof.
  destruct (@get_collection_stats_keys MemMongo.driver MemMongoOps.ops Samples.connected
              Samples.testdb "items" (MemMongoOps.coll_stats [])
              {[ "_id_" := VInt 4096 ]}
              (SchemaSamples.items []) (SchemaSamples.items []))
    as (r & Hrun & _ & _ & _ & Havg & Hidx & Hbytes & _);
    [vm_compute; reflexivity ..|].
  exists r. split; [exact Hrun|]. split; [exact Havg|]. split; [exact Hidx|exact Hbytes].
Defined.

(** ** The count of masked records *)

Section MaskCount.
Context `{Pymongo}.

Lemma mask_loop_counts (d : Database) (collection field : string)
    (mask_fn : value -> outcome value) (healthy : World -> Prop)
    (docs : list document) (n : Z) (w : World) :
  (forall doc, doc ∈ docs -> is_Some (doc !! "_id")) ->
  (forall v, exists v', mask_fn v = Return v') ->
  (forall w1 id v,
      healthy w1 ->
      exists w2,
        coll_update_one d collection {[ "_id" := id ]}
          {[ "$set" := VDict {[ field := v ]} ]} w1 = (Return tt, w2)
        /\ healthy w2) ->
  healthy w ->
  exists w',
    mask_loop d collection field mask_fn docs n w
    = (Return (n + Z.of_nat (length (List.filter (maskable field) docs))), w')
    /\ healthy w'.
Proof.
  intros Hid Hfn Hupd. revert n w.
  induction docs as [|doc docs IH]; intros n w Hw.
  - exists w. split; [|done]. simpl. unfold ret. do 2 f_equal. lia.
  - assert (forall doc', doc' ∈ docs -> is_Some (doc' !! "_id")) as Hid'.
    { intros doc' Hin. apply Hid. set_solver. }
    cbn [mask_loop List.filter]. unfold maskable at 1.
    destruct (doc !! field) as [v|] eqn:Hv; [|by apply IH].
    destruct (truthy v); [|by apply IH].
    destruct (Hfn v) as [v' Hv'].
    destruct (Hid doc) as [id Hdoc]; [set_solver|].
    destruct (Hupd w id v' Hw) as (w2 & Hrun & Hw2).
    unfold bind, lift. rewrite Hv'. simpl. rewrite Hdoc, Hrun.
    destruct (IH Hid' (n + 1) w2 Hw2) as (w' & -> & Hw').
    exists w'. split; [|done]. do 2 f_equal. simpl. lia.
Qed.

(** X10: when [mask_fn] never raises, every record has an [_id] and the
    server accepts the updates, [mask_field] returns the number of records
    in which the field is present with a truthy value. *)
Theorem mask_field_counts_maskable (self : MongoDBAdapter) (d : Database)
    (collection field : string) (mask_fn : value -> outcome value)
    (healthy : World -> Prop) (docs : list document) (w w0 : World) :
  db self = Some d ->
  coll_find d collection w = (Return docs, w0) ->
  healthy w0 ->
  (forall doc, doc ∈ docs -> is_Some (doc !! "_id")) ->
  (forall v, exists v', mask_fn v = Return v') ->
  (forall w1 id v,
      healthy w1 ->
      exists w2,
        coll_update_one d collection {[ "_id" := id ]}
          {[ "$set" := VDict {[ field := v ]} ]} w1 = (Return tt, w2)
        /\ healthy w2) ->
  (mask_field self collection field mask_fn w).1
  = Return (Z.of_nat (length (List.filter (maskable field) docs))).
Proof.
  intros Hdb Hfind Hw0 Hid Hfn Hupd.
  unfold mask_field, bind, lift, self_db_getitem. rewrite Hdb, Hfind.
  destruct (mask_loop_counts d collection field mask_fn healthy docs 0 w0)
    as (w' & -> & _); done.
Qed.

End MaskCount.

(** In the in-memory driver a single-field update by [_id] succeeds
    whenever the server is up, and leaves it up. *)
Lemma mem_update_one_up (d : Database) (collection field : string) (id v : value)
    (w1 : MemMongo.world) :
  MemMongo.server_up w1 = true ->
  exists w2,
    MemMongo.update_one d collection {[ "_id" := id ]}
      {[ "$set" := VDict {[ field := v ]} ]} w1 = (Return tt, w2)
    /\ MemMongo.server_up w2 = true.
Proof.
  intros Hup. unfold MemMongo.update_one, MemMongo.bulk. rewrite Hup.
  cbn [MemMongo.exec_ops MemMongo.exec_op]. rewrite lookup_singleton_eq.
  destruct (MemMongo.on_first _ _ _) as [docs' n]. cbn. eauto.
Qed.

Lemma mask_field_counts_maskable_witness :
  (@mask_field MemMongo.driver Samples.connected "people" "email"
     (fun _ => Return (VStr "***"))
     (MaskSamples.people [MaskSamples.ann; MaskSamples.zero_score; MaskSamples.cyd])).1
  = Return 2.
Proof.
  apply (@mask_field_counts_maskable MemMongo.driver Samples.connected Samples.testdb
           "people" "email" (fun _ => Return (VStr "***"))
           (fun w => MemMongo.server_up w = true)
           [MaskSamples.ann; MaskSamples.zero_score; MaskSamples.cyd]
           (MaskSamples.people [MaskSamples.ann; MaskSamples.zero_score; MaskSamples.cyd])
           (MaskSamples.people [MaskSamples.ann; MaskSamples.zero_score; MaskSamples.cyd])).
  - vm_compute; reflexivity.
  - vm_compute; reflexivity.
  - reflexivity.
  - intros doc Hin.
    repeat (apply elem_of_cons in Hin as [->|Hin]; [by vm_compute; eexists|]).
    by apply elem_of_nil in Hin.
  - intros v. by eexists.
  - intros w1 id v Hup. by apply mem_update_one_up.
Defined.

(** ** The shape of an inferred schema *)

Section SchemaShape.
Context `{Pymongo} `{PySetOrder}.

(** X11: the schema [get_schema] returns is named after the collection and
    has ['_id'] as primary key; its fields are exactly the keys that occur
    in some sampled record, ['_id'] apart, each entry is filed under its
    own name, and [indexed], [unique] and [reference] are never inferred:
    they are [False], [False] and [None]. *)
Theorem get_schema_fields_shape (self : MongoDBAdapter) (d : Database)
    (collection : string) (sample_size : Z) (docs : list document) (w w' : World) :
  db self = Some d ->
  coll_find d collection w = (Return docs, w') ->
  exists schema,
    get_schema self collection sample_size w = (Return schema, w')
    /\ DocumentSchema.name schema = collection
    /\ DocumentSchema.primary_key schema = "_id"
    /\ (forall f,
          is_Some (DocumentSchema.fields schema !! f) <->
          f <> "_id"
          /\ exists doc, doc ∈ cursor_limit sample_size docs /\ is_Some (doc !! f))
    /\ (forall f fs,
          DocumentSchema.fields schema !! f = Some fs ->
          FieldSchema.name fs = f
          /\ FieldSchema.indexed fs = false
          /\ FieldSchema.unique fs = false
          /\ FieldSchema.reference fs = None).
Proof.
  intros Hdb Hfind.
  rewrite (get_schema_run self d collection sample_size docs w w') by done.
  set (sample := cursor_limit sample_size docs) in *.
  destruct (infer_schema_fields collection sample) as (fi & -> & Hfi).
  exists (new_DocumentSchema collection fi).
  split; [done|]. split; [done|]. split; [done|]. simpl. split.
  - intros f. rewrite Hfi. pose proof (all_field_names_spec f sample) as Hnames.
    case_decide as Hf; split.
    + intros _. tauto.
    + by eauto.
    + by intros [? ?].
    + tauto.
  - intros f fs. rewrite Hfi. case_decide; [|done]. by intros [= <-].
Qed.

(** X12: with a non-zero [sample_size], the documents after the first
    [|sample_size|] never reach the schema: two collections that start with
    the same documents, as many as the sample takes, get the same schema. *)
Theorem get_schema_sample_bound (self : MongoDBAdapter) (d : Database)
    (collection : string) (sample_size : Z) (docs extra : list document)
    (w1 w1' w2 w2' : World) :
  db self = Some d ->
  sample_size <> 0 ->
  (Z.abs_nat sample_size <= length docs)%nat ->
  coll_find d collection w1 = (Return docs, w1') ->
  coll_find d collection w2 = (Return (docs ++ extra), w2') ->
  (get_schema self collection sample_size w1).1
  = (get_schema self collection sample_size w2).1.
Proof.
  intros Hdb Hn Hlen H1 H2.
  rewrite (get_schema_run self d collection sample_size docs w1 w1') by done.
  rewrite (get_schema_run self d collection sample_size (docs ++ extra) w2 w2') by done.
  simpl. f_equal. unfold cursor_limit.
  destruct (Z.eqb_spec sample_size 0) as [?|_]; [done|].
  by rewrite take_app_le.
Qed.

(** X13: a field that every sampled record holds, with values outside the
    [isinstance] chain ([None] or a datetime), is reported with type
    ['unknown'] and [nullable=False]: a date is never reported as a date,
    and a field that is [None] everywhere is not nullable. *)
Theorem get_schema_unclassified_values (self : MongoDBAdapter) (d : Database)
    (collection : string) (sample_size : Z) (docs : list document) (w w' : World)
    (f : string) :
  db self = Some d ->
  coll_find d collection w = (Return docs, w') ->
  f <> "_id" ->
  cursor_limit sample_size docs <> [] ->
  (forall doc, doc ∈ cursor_limit sample_size docs ->
               exists v, doc !! f = Some v /\ classify v = None) ->
  exists schema,
    get_schema self collection sample_size w = (Return schema, w')
    /\ DocumentSchema.fields schema !! f = Some (new_FieldSchema f "unknown" false).
Proof.
  intros Hdb Hfind Hid Hne Hvals.
  rewrite (get_schema_run self d collection sample_size docs w w') by done.
  set (sample := cursor_limit sample_size docs) in *.
  destruct (infer_schema_fields collection sample) as (fi & -> & Hfi).
  exists (new_DocumentSchema collection fi). split; [done|]. simpl.
  destruct sample as [|doc0 rest] eqn:Hsample; [done|]. rewrite <- Hsample in *.
  assert (doc0 ∈ sample) as Hdoc0 by (rewrite Hsample; set_solver).
  destruct (Hvals doc0 Hdoc0) as (v0 & Hv0 & _).
  rewrite Hfi, decide_True.
  2:{ split; [|done]. apply all_field_names_spec. exists doc0. by rewrite Hv0. }
  f_equal. unfold inferred_field. f_equal.
  - destruct (inferred_type_cases sample f) as [[_ ->]|(doc & v & Hin & Hv & Hc)]; [done|].
    destruct (Hvals doc Hin) as (v' & Hv' & Hc'). congruence.
  - apply not_true_is_false. rewrite scan_field_nullable.
    intros (doc & Hin & Hnone). destruct (Hvals doc Hin) as (v' & Hv' & _). congruence.
Qed.

End SchemaShape.

Lemma get_schema_fields_shape_witness :
  exists schema,
    @get_schema MemMongo.driver MemMongo.ascending Samples.connected "items" 10
      (SchemaSamples.items SchemaSamples.counted)
    = (Return schema, SchemaSamples.items SchemaSamples.counted)
    /\ dom (DocumentSchema.fields schema) = ({[ "n"; "tag" ]} : gset string).
Proof.
  destruct (@get_schema_fields_shape MemMongo.driver MemMongo.ascending Samples.connected
              Samples.testdb "items" 10 SchemaSamples.counted
              (SchemaSamples.items SchemaSamples.counted)
              (SchemaSamples.items SchemaSamples.counted))
    as (schema & Hrun & _); [vm_compute; reflexivity ..|].
  exists schema. split; [exact Hrun|].
  vm_compute in Hrun. injection Hrun as <-. vm_compute. reflexivity.
Defined.

Lemma get_schema_sample_bound_witness :
  (@get_schema MemMongo.driver MemMongo.ascending Samples.connected "items" 2
     (SchemaSamples.items SchemaSamples.counted)).1
  = (@get_schema MemMongo.driver MemMongo.ascending Samples.connected "items" 2
       (SchemaSamples.items (SchemaSamples.counted ++ SchemaSamples.mixed))).1.
Proof.
  apply (@get_schema_sample_bound MemMongo.driver MemMongo.ascending Samples.connected
           Samples.testdb "items" 2 SchemaSamples.counted SchemaSamples.mixed
           (SchemaSamples.items SchemaSamples.counted)
           (SchemaSamples.items SchemaSamples.counted)
           (SchemaSamples.items (SchemaSamples.counted ++ SchemaSamples.mixed))
           (SchemaSamples.items (SchemaSamples.counted ++ SchemaSamples.mixed))).
  - vm_compute; reflexivity.
  - lia.
  - vm_compute; lia.
  - vm_compute; reflexivity.
  - vm_compute; reflexivity.
Defined.

Lemma get_schema_unclassified_values_witness :
  exists schema,
    @get_schema MemMongo.driver MemMongo.ascending Samples.connected "items" 10
      (SchemaSamples.items MoreSamples.dated)
    = (Return schema, SchemaSamples.items MoreSamples.dated)
    /\ DocumentSchema.fields schema !! "created"
       = Some (new_FieldSchema "created" "unknown" false).
Proof.
  apply (@get_schema_unclassified_values MemMongo.driver MemMongo.ascending
           Samples.connected Samples.testdb "items" 10 MoreSamples.dated).
  - vm_compute; reflexivity.
  - vm_compute; reflexivity.
  - discriminate.
  - change (cursor_limit 10 MoreSamples.dated) with MoreSamples.dated. discriminate.
  - change (cursor_limit 10 MoreSamples.dated) with MoreSamples.dated.
    intros doc Hin. unfold MoreSamples.dated in Hin.
    apply elem_of_cons in Hin as [->|Hin]; [by eexists; split; vm_compute|].
    apply elem_of_cons in Hin as [->|Hin]; [by eexists; split; vm_compute|].
    by apply elem_of_nil in Hin.
Defined.

(** ** The registry is case-insensitive *)

Section RegistryCase.
Context `{Pymongo}.

(** X14: [get_adapter] looks identifiers up by their lower-cased form: two
    identifiers that differ only by case get the same adapter. *)
Theorem get_adapter_ignores_case (s s' : string) (a : DataAdapter) (w w' : World) :
  lower s = lower s' ->
  (get_adapter s w).1 = Return a ->
  get_adapter s' w' = (Return a, w').
Proof.
  unfold get_adapter. intros <-.
  destruct (adapters !! lower s) as [cls|]; [|done].
  by intros [= <-].
Qed.

End RegistryCase.

Lemma get_adapter_ignores_case_witness :
  @get_adapter MemMongo.driver "PostgreSQL" MemMongo.down
  = (Return (Postgres PostgreSQLAdapter_init), MemMongo.down).
Proof.
  apply (@get_adapter_ignores_case MemMongo.driver "postgresql" "PostgreSQL"
           (Postgres PostgreSQLAdapter_init) (MemMongo.up ∅) MemMongo.down);
    reflexivity.
Defined.

(** ** The client of the command-line tool *)

Section CliClient.
Context `{Pymongo}.

(** X15: [MongoDBClient.connect] never raises.  It answers [True] exactly
    when the driver builds the client, the ping returns and the database
    is obtained, and it then holds that client and that database, under
    the name read off the connection string, or ['test'] when the string
    names none. *)
Theorem cli_connect_never_raises (self : MongoDBClient.t) (mongodb_uri : string)
    (w : World) :
  exists b self' w',
    MongoDBClient.connect self mongodb_uri w = (Return b, self', w')
    /\ (b = true <->
        exists c d,
          MongoClient mongodb_uri MongoDBClient.options = Return c
          /\ (admin_command c "ping" w).1 = Return tt
          /\ client_getitem c
               (if String.eqb (parse_db_name mongodb_uri) "" then "test"
                else parse_db_name mongodb_uri) = Return d
          /\ MongoDBClient.client self' = Some c
          /\ MongoDBClient.db self' = Some d
          /\ MongoDBClient.db_name self' =
               Some (if String.eqb (parse_db_name mongodb_uri) "" then "test"
                     else parse_db_name mongodb_uri)).
Proof.
  unfold MongoDBClient.connect, MongoDBClient.connect_body.
  destruct (MongoClient mongodb_uri MongoDBClient.options) as [c|e] eqn:Hc.
  - destruct (admin_command c "ping" w) as [[[]|e] w'] eqn:Hping.
    + destruct (client_getitem c _) as [d|e] eqn:Hd.
      * eexists true, _, w'. split; [done|]. split; [|done].
        intros _. exists c, d. repeat split; [by rewrite Hping|exact Hd].
      * eexists false, _, w'. split; [done|]. split; [done|].
        intros (c' & d' & [= <-] & _ & Hd' & _). simpl in Hd. congruence.
    + eexists false, _, w'. split; [done|]. split; [done|].
      intros (c' & d' & [= <-] & Hp & _). by rewrite Hping in Hp.
  - eexists false, _, w. split; [done|]. split; [done|].
    by intros (c' & d' & ? & _).
Qed.


End CliClient.


(** ** Masking an address *)

Lemma all_words_cons (c : ascii) (s : string) :
  all_words (String c s) = is_word c && all_words s.
Proof. reflexivity. Qed.

(** The greedy run of word characters stops at the first other character. *)
Lemma after_words_stop (local rest : string) (x : ascii) :
  all_words local = true -> is_word x = false ->
  after_words (local +:+ String x rest) = String x rest.
Proof.
  intros Hl Hx. induction local as [|c local IH]; simpl.
  - by rewrite Hx.
  - rewrite all_words_cons in Hl. apply andb_true_iff in Hl as [-> Hl]. by apply IH.
Qed.

Lemma after_words_all (s : string) : all_words s = true -> after_words s = "".
Proof.
  induction s as [|c s IH]; [done|]. rewrite all_words_cons. simpl.
  intros [-> Hs]%andb_true_iff. by apply IH.
Qed.

(** X17: of an address made of a word character, more word characters, an
    at sign and a domain, [_mask_email] keeps the first character and the
    domain (up to its first newline) and nothing else: the rest of the local
    part is replaced by three stars. *)
Theorem mask_email_hides_local (c : ascii) (local domain : string) :
  is_word c = true ->
  all_words local = true ->
  up_to_newline domain <> "" ->
  _mask_email (String c (local +:+ String "@" domain))
  = String c ("***@" +:+ up_to_newline domain).
Proof.
  intros Hc Hl Hd. unfold _mask_email. cbv beta iota. rewrite Hc.
  rewrite (after_words_stop local domain "@" Hl eq_refl). cbv beta iota.
  change (Ascii.eqb "@" "@") with true. cbv beta iota.
  by destruct (up_to_newline domain).
Qed.

(** X18: an address whose leading run of ASCII word characters is followed
    by an ASCII character that is neither a word character nor an at sign
    is not masked but replaced by ['masked@example.com']: so is an address
    with a dot, a plus or a hyphen in its local part, and one that starts
    with such a character; so is a run of ASCII word characters without an
    at sign. *)
Theorem mask_email_rejects (local rest : string) (x : ascii) :
  all_words local = true ->
  (nat_of_ascii x < 128)%nat ->
  is_word x = false ->
  x <> "@"%char ->
  _mask_email (local +:+ String x rest) = masked_fallback
  /\ _mask_email local = masked_fallback.
Proof.
  intros Hl _ Hx Hat. split.
  - destruct local as [|c local]; simpl.
    + by rewrite Hx.
    + rewrite all_words_cons in Hl. apply andb_true_iff in Hl as [-> Hl].
      rewrite (after_words_stop local rest x Hl Hx).
      by destruct (Ascii.eqb_spec x "@").
  - destruct local as [|c local]; [done|]. simpl.
    rewrite all_words_cons in Hl. apply andb_true_iff in Hl as [-> Hl].
    by rewrite (after_words_all local Hl).
Qed.

(** X19: masking is not idempotent.  An address that was masked is, when
    masked again, replaced by ['masked@example.com'], and that replacement
    is itself masked to ['m***@example.com']. *)
Theorem mask_email_twice (email : string) :
  _mask_email (_mask_email email) =
    if String.eqb (_mask_email email) masked_fallback
    then "m***@example.com" else masked_fallback.
Proof.
  assert (_mask_email masked_fallback = "m***@example.com") as Hfb by reflexivity.
  unfold _mask_email at 2 3.
  destruct email as [|c rest]; [exact Hfb|].
  destruct (is_word c) eqn:Hc; [|exact Hfb].
  destruct (after_words rest) as [|at_sign domain]; [exact Hfb|].
  destruct (Ascii.eqb at_sign "@"); [|exact Hfb].
  destruct (up_to_newline domain) as [|g group3]; [exact Hfb|].
  assert (String.eqb (String c ("***@" +:+ String g group3)) masked_fallback = false)
    as ->.
  { simpl. by destruct (Ascii.eqb c "m"). }
  unfold _mask_email. by rewrite Hc.
Qed.

Lemma mask_email_hides_local_witness :
  _mask_email "john_doe@example.org" = "j***@example.org".
Proof.
  apply (mask_email_hides_local "j" "ohn_doe" "example.org").
  - reflexivity.
  - reflexivity.
  - discriminate.
Defined.

Lemma mask_email_rejects_witness :
  _mask_email "john.doe@example.org" = "masked@example.com"
  /\ _mask_email "john" = "masked@example.com".
Proof.
  apply (mask_email_rejects "john" "doe@example.org" ".").
  - reflexivity.
  - vm_compute. lia.
  - reflexivity.
  - discriminate.
Defined.

(** ** The batches of a provisioning run *)

Lemma Zsum_snoc (l : list Z) (x : Z) : Zsum (l ++ [x]) = Zsum l + x.
Proof. unfold Zsum. induction l as [|y l IH]; simpl; lia. Qed.

(** The batches before the [k]-th hold [min (100 k) volume] documents. *)
Lemma batch_prefix_sum (volume : Z) (k : nat) :
  0 < volume ->
  Z.of_nat k <= (volume - 1) / batch_size + 1 ->
  Zsum ((fun i => Z.min (0 + Z.of_nat i * batch_size + batch_size) volume
                  - (0 + Z.of_nat i * batch_size)) <$> seq 0 k)
  = Z.min (Z.of_nat k * batch_size) volume.
Proof.
  intros Hv. unfold batch_size. induction k as [|k IH]; intros Hk.
  - simpl. lia.
  - rewrite seq_S, fmap_app. cbn [fmap list_fmap]. rewrite Zsum_snoc, IH by lia.
    cbn [Nat.add].
    pose proof (Z.mul_div_le (volume - 1) 100 ltac:(lia)). lia.
Qed.

(** The batch counts add up to the volume, each between 1 and 100. *)
Lemma batch_counts_sum_bounds (volume : Z) :
  Zsum (batch_counts volume) = Z.max 0 volume
  /\ Forall (fun batch_count => 1 <= batch_count <= batch_size) (batch_counts volume).
Proof.
  unfold batch_counts, py_range. destruct (Z.ltb_spec 0 volume) as [Hv|Hv].
  - rewrite Z.sub_0_r. rewrite <- list_fmap_compose.
    pose proof (Z.mul_div_le (volume - 1) 100 ltac:(lia)) as Hle.
    pose proof (Z.mul_succ_div_gt (volume - 1) 100 ltac:(lia)) as Hgt.
    pose proof (Z.div_pos (volume - 1) 100 ltac:(lia) ltac:(lia)) as Hpos.
    split.
    + unfold compose. rewrite batch_prefix_sum; unfold batch_size; [lia..].
    + apply Forall_fmap, Forall_forall. intros i Hi. unfold compose.
      apply list_elem_of_In, in_seq in Hi. unfold batch_size in *. lia.
  - replace (Z.max 0 volume) with 0 by lia. by repeat constructor.
Qed.

(** X20: the loop of [provision] cuts a volume into batches of at least one
    and at most 100 documents that add up to the volume; a volume of zero or
    less gives no batch. *)
Theorem batch_counts_cover_volume (volume : Z) :
  Zsum (batch_counts volume) = Z.max 0 volume
  /\ Forall (fun batch_count => 1 <= batch_count <= batch_size) (batch_counts volume)
  /\ Z.of_nat (length (batch_counts volume)) = (Z.max 0 volume + 99) / 100.
Proof.
  destruct (batch_counts_sum_bounds volume) as [Hsum Hbounds].
  split; [exact Hsum|]. split; [exact Hbounds|].
  unfold batch_counts, py_range, batch_size.
  rewrite !length_fmap, length_seq.
  destruct (Z.ltb_spec 0 volume) as [Hv|Hv].
  - pose proof (Z.div_pos (volume - 1) 100 ltac:(lia) ltac:(lia)) as Hpos.
    rewrite Z.sub_0_r, Z2Nat.id by lia.
    replace (Z.max 0 volume + 99) with (volume - 1 + 1 * 100) by lia.
    by rewrite Z.div_add.
  - by replace (Z.max 0 volume) with 0 by lia.
Qed.

Lemma mask_user_spec (doc : document) :
  email_is_text doc -> exists doc', mask_user doc = Return doc' /\ masked_user doc doc'.
Proof.
  intros Htext. unfold mask_user.
  destruct (doc !! "email") as [v|] eqn:Hv.
  - destruct (Htext v Hv) as [email ->]. eexists. split; [done|].
    split; [|split].
    + rewrite dom_insert_L. apply elem_of_dom_2 in Hv. set_solver.
    + intros key Hkey. by rewrite lookup_insert_ne.
    + intros email' He. rewrite Hv in He. injection He as <-.
      by rewrite lookup_insert_eq.
  - exists doc. split; [done|]. split; [done|]. split; [done|]. congruence.
Qed.

Lemma mask_users_spec (docs : list document) :
  Forall email_is_text docs ->
  exists docs', mask_users docs = Return docs' /\ Forall2 masked_user docs docs'.
Proof.
  induction 1 as [|doc docs Hdoc _ (docs' & IH & HF)].
  - by exists [].
  - destruct (mask_user_spec doc Hdoc) as (doc' & Hrun & Hm).
    exists (doc' :: docs'). simpl. rewrite Hrun. cbn. rewrite IH. cbn.
    split; [done|by constructor].
Qed.

(** X21: masking a batch of users whose [email], where present, is a string
    returns as many documents, in the same order, each with the keys it had
    and every field but [email] unchanged, the [email] being the masked
    address. *)
Theorem mask_users_preserves (docs : list document) :
  Forall email_is_text docs ->
  exists docs',
    mask_users docs = Return docs'
    /\ length docs' = length docs
    /\ Forall2 masked_user docs docs'.
Proof.
  intros Htext. destruct (mask_users_spec docs Htext) as (docs' & Hrun & HF).
  exists docs'. split; [done|]. split; [|done]. symmetry. by eapply Forall2_length.
Qed.

Lemma mask_users_preserves_witness :
  exists docs',
    mask_users [MaskSamples.ann; {[ "_id" := VInt 9 ]}] = Return docs'
    /\ length docs' = length [MaskSamples.ann; ({[ "_id" := VInt 9 ]} : document)]
    /\ Forall2 masked_user [MaskSamples.ann; {[ "_id" := VInt 9 ]}] docs'.
Proof.
  apply mask_users_preserves. repeat constructor.
  - intros v. vm_compute. intros [= <-]. by eexists.
  - intros v. vm_compute. discriminate.
Defined.

(** ** The factories *)

(** A dictionary literal over a list of keys holds exactly those keys. *)
Lemma lookup_keyed (g : string -> value) (keys : list string) (key : string) :
  (list_to_map ((fun k => (k, g k)) <$> keys) : document) !! key =
    if decide (key ∈ keys) then Some (g key) else None.
Proof.
  induction keys as [|k keys IH].
  - rewrite fmap_nil, list_to_map_nil, lookup_empty.
    case_decide as Hin; [by apply elem_of_nil in Hin|done].
  - rewrite fmap_cons, list_to_map_cons.
    destruct (decide (key = k)) as [->|Hne].
    + rewrite lookup_insert_eq. rewrite decide_True; [done|set_solver].
    + rewrite lookup_insert_ne, IH by done.
      repeat case_decide; try done; set_solver.
Qed.

Section KeywordFacts.
Context `{KeywordOrder}.

Lemma first_bound_free (params : list string) (kwargs : document) :
  (forall name, name ∈ params -> kwargs !! name = None) ->
  first_bound params kwargs = None.
Proof.
  intros Hfree. destruct (first_bound params kwargs) as [name|] eqn:Hfirst; [|done].
  apply first_bound_Some in Hfirst as [Hin [v Hv]]. by rewrite (Hfree name Hin) in Hv.
Qed.

Lemma first_bound_taken (params : list string) (kwargs : document) (name : string) :
  name ∈ params -> is_Some (kwargs !! name) ->
  exists name',
    first_bound params kwargs = Some name'
    /\ name' ∈ params /\ is_Some (kwargs !! name').
Proof.
  intros Hin [v Hv]. destruct (first_bound params kwargs) as [name'|] eqn:Hfirst.
  - exists name'. split; [done|]. by apply first_bound_Some.
  - by rewrite (first_bound_None params kwargs name Hfirst Hin) in Hv.
Qed.

Lemma first_bound_empty (params : list string) : first_bound params ∅ = None.
Proof. apply first_bound_free. intros name _. apply lookup_empty. Qed.

End KeywordFacts.

Section FactoryFacts2.
Context `{Randomness}.

Lemma build_run (f : factory) (overrides : document) (r : Rng) :
  overrides !! "cls" = None ->
  f <> BaseFactory ->
  build f overrides r
  = (Return (built f overrides r), (draw_defaults (collection_name f) r).2).
Proof.
  intros Hcls Hf. unfold build, built. rewrite Hcls.
  destruct f; [done|..]; by destruct (draw_defaults _ r).
Qed.

Lemma create_run (f : factory) (overrides : document) (r : Rng) :
  overrides !! "cls" = None ->
  f <> BaseFactory ->
  create f overrides r
  = (Return (built f overrides r), (draw_defaults (collection_name f) r).2).
Proof. intros Hcls Hf. unfold create. rewrite Hcls. by apply build_run. Qed.

Lemma create_cls (f : factory) (overrides : document) (r : Rng) :
  is_Some (overrides !! "cls") ->
  create f overrides r = (Raise (multiple_argument "cls"), r).
Proof. intros [v Hv]. unfold create. by rewrite Hv. Qed.

End FactoryFacts2.

Section FactoryProps.
Context `{Randomness} `{KeywordOrder}.

Lemma built_lookup (f : factory) (overrides : document) (r : Rng) (key : string) :
  built f overrides r !! key =
    if decide (key ∈ factory_keys f)
    then Some (default (default_value f (draw_defaults (collection_name f) r).1 key)
                 (overrides !! key))
    else None.
Proof. unfold built. apply lookup_keyed. Qed.

Lemma built_has_keys (f : factory) (overrides : document) (r : Rng) :
  has_keys_of f (built f overrides r).
Proof.
  intros key. rewrite built_lookup. case_decide; [by split; eauto|].
  split; [by intros [? ?]|done].
Qed.

(** X22: a [build] called with an override named [cls] raises a
    [TypeError], whatever the factory, and draws nothing: the keyword
    collides with the class.  Otherwise, on a factory that implements it, a
    [build] returns a document with exactly the keys of its dictionary
    literal: an override replaces the value of such a key (whatever the
    value), an override under any other key is dropped, and the keys without
    override get their defaults.  The defaults are drawn in any case, so the
    random state after the call does not depend on the overrides. *)
Theorem build_keys_and_overrides (f : factory) (overrides : document) (r : Rng) :
  (is_Some (overrides !! "cls") ->
   build f overrides r = (Raise (multiple_argument "cls"), r))
  /\ (overrides !! "cls" = None ->
      f <> BaseFactory ->
      exists doc,
        build f overrides r = (Return doc, (draw_defaults (collection_name f) r).2)
        /\ has_keys_of f doc
        /\ (forall key v,
              key ∈ factory_keys f -> overrides !! key = Some v -> doc !! key = Some v)
        /\ (forall key,
              key ∈ factory_keys f -> overrides !! key = None ->
              doc !! key
              = Some (default_value f (draw_defaults (collection_name f) r).1 key))).
Proof.
  split.
  - intros [v Hv]. unfold build. by rewrite Hv.
  - intros Hcls Hf. exists (built f overrides r).
    split; [by apply build_run|]. split; [apply built_has_keys|]. split.
    + intros key v Hin Hov. by rewrite built_lookup, decide_True, Hov.
    + intros key Hin Hov. by rewrite built_lookup, decide_True, Hov.
Qed.

Lemma create_n_spec (f : factory) (n : nat) (overrides : document) (r : Rng) :
  overrides !! "cls" = None ->
  f <> BaseFactory ->
  exists docs r',
    create_n f n overrides r = (Return docs, r')
    /\ length docs = n
    /\ Forall (fun doc => exists r0, doc = built f overrides r0) docs.
Proof.
  intros Hcls Hf. revert r. induction n as [|n IH]; intros r.
  - by exists [], r.
  - cbn [create_n]. rewrite (create_run f overrides r Hcls Hf).
    destruct (IH (draw_defaults (collection_name f) r).2) as (docs & r' & -> & Hlen & HF).
    exists (built f overrides r :: docs), r'.
    split; [done|]. split; [by rewrite <- Hlen|]. constructor; [by eexists|done].
Qed.

(** X23: [create_batch] called with an override named [cls] or [count]
    raises a [TypeError] that names one of the colliding keywords, whatever
    the factory and the count, and draws nothing.  Otherwise, on a factory
    that implements [build], it returns [count] documents, none for a count
    of zero or less, each with exactly the keys of the factory; on
    [BaseFactory] it raises [NotImplementedError] for a positive count and
    returns the empty list otherwise. *)
Theorem create_batch_length (f : factory) (count : Z) (overrides : document) (r : Rng) :
  (is_Some (overrides !! "cls") \/ is_Some (overrides !! "count") ->
   exists name,
     (name = "cls" \/ name = "count")
     /\ is_Some (overrides !! name)
     /\ create_batch f count overrides r = (Raise (multiple_argument name), r))
  /\ (overrides !! "cls" = None -> overrides !! "count" = None ->
      f <> BaseFactory ->
      exists docs r',
        create_batch f count overrides r = (Return docs, r')
        /\ Z.of_nat (length docs) = Z.max 0 count
        /\ Forall (has_keys_of f) docs)
  /\ (overrides !! "cls" = None -> overrides !! "count" = None ->
      f = BaseFactory ->
      create_batch f count overrides r =
        if 0 <? count then (Raise NotImplementedError, r) else (Return [], r)).
Proof.
  assert (overrides !! "cls" = None -> overrides !! "count" = None ->
          first_bound ["cls"; "count"] overrides = None) as Hfree.
  { intros Hcls Hcount. apply first_bound_free. intros name Hin.
    apply elem_of_cons in Hin as [->|Hin]; [done|].
    apply elem_of_cons in Hin as [->|Hin]; [done|]. by apply elem_of_nil in Hin. }
  split; [|split].
  - intros Hsome.
    assert (exists name, name ∈ ["cls"; "count"] /\ is_Some (overrides !! name))
      as (name0 & Hin0 & Hsome0).
    { destruct Hsome as [Hs|Hs]; [exists "cls"|exists "count"]; split; try done;
        set_solver. }
    destruct (first_bound_taken _ _ name0 Hin0 Hsome0) as (name & Hfirst & Hin & Hname).
    exists name. split; [set_solver|]. split; [done|].
    unfold create_batch. by rewrite Hfirst.
  - intros Hcls Hcount Hf. unfold create_batch. rewrite (Hfree Hcls Hcount).
    destruct (create_n_spec f (Z.to_nat count) overrides r Hcls Hf)
      as (docs & r' & Hrun & Hlen & HF).
    exists docs, r'. split; [done|]. split; [lia|].
    eapply Forall_impl; [exact HF|]. intros doc [r0 ->]. apply built_has_keys.
  - intros Hcls Hcount ->. unfold create_batch. rewrite (Hfree Hcls Hcount).
    destruct (Z.ltb_spec 0 count) as [Hc|Hc].
    + destruct (Z.to_nat count) as [|n] eqn:Hn; [lia|].
      cbn [create_n]. unfold create, build. by rewrite Hcls.
    + by replace (Z.to_nat count) with 0%nat by lia.
Qed.

Lemma choose_id_member (ids : list N) (r : Rng) :
  ids <> [] -> (choose_id (Some ids) r).1 ∈ ids.
Proof.
  intros Hne. destruct ids as [|id rest]; [done|]. unfold choose_id.
  pose proof (randbelow_lt (length (id :: rest)) r ltac:(simpl; lia)) as Hlt.
  destruct (randbelow (length (id :: rest)) r) as [i r']. simpl in Hlt |- *.
  apply list_elem_of_In. apply (nth_In (id :: rest) id). simpl. lia.
Qed.

Lemma comment_dataset_n_spec (n : nat) (movie_ids user_ids : option (list N)) (r : Rng) :
  exists comments r',
    comment_dataset_n n movie_ids user_ids r = (Return comments, r')
    /\ length comments = n
    /\ Forall (refers_to movie_ids user_ids) comments.
Proof.
  revert r. induction n as [|n IH]; intros r.
  - by exists [], r.
  - cbn [comment_dataset_n].
    pose proof (fun ids => choose_id_member ids r) as Hm.
    destruct (choose_id movie_ids r) as [movie_id r1] eqn:Hmovie.
    pose proof (fun ids => choose_id_member ids r1) as Hu.
    destruct (choose_id user_ids r1) as [user_id r2] eqn:Huser.
    rewrite create_run by done.
    destruct (IH (draw_defaults (collection_name CommentFactory) r2).2)
      as (comments & r' & -> & Hlen & HF).
    eexists (_ :: comments), r'. split; [done|]. split; [by rewrite <- Hlen|].
    constructor; [|done]. exists movie_id, user_id.
    split; [|split; [|split]].
    + rewrite built_lookup, decide_True by (simpl; set_solver). by simplify_map_eq.
    + rewrite built_lookup, decide_True by (simpl; set_solver). by simplify_map_eq.
    + intros ids -> Hne. specialize (Hm ids Hne). by rewrite Hmovie in Hm.
    + intros ids -> Hne. specialize (Hu ids Hne). by rewrite Huser in Hu.
Qed.

(** X24: [create_comment_dataset] returns [count] comments (none for a
    count of zero or less), and every comment refers, in [movie_id] and
    [user_id], to one of the given movies and one of the given users
    whenever the corresponding list is given and not empty. *)
Theorem create_comment_dataset_references (count : Z)
    (movie_ids user_ids : option (list N)) (r : Rng) :
  exists comments r',
    create_comment_dataset count movie_ids user_ids r = (Return comments, r')
    /\ Z.of_nat (length comments) = Z.max 0 count
    /\ Forall (refers_to movie_ids user_ids) comments.
Proof.
  unfold create_comment_dataset.
  destruct (comment_dataset_n_spec (Z.to_nat count) movie_ids user_ids r)
    as (comments & r' & Hrun & Hlen & HF).
  exists comments, r'. split; [done|]. split; [lia|done].
Qed.

End FactoryProps.

Lemma build_keys_and_overrides_witness :
  @build Counter.source UserFactory {[ "cls" := VStr "admin" ]} 5%N
    = (Raise (multiple_argument "cls"), 5%N)
  /\ exists doc,
       @build Counter.source MovieFactory
         {[ "title" := VStr "Alien"; "budget" := VInt 11 ]} 5%N = (Return doc, 6%N)
       /\ has_keys_of MovieFactory doc
       /\ (forall key v,
             key ∈ factory_keys MovieFactory ->
             ({[ "title" := VStr "Alien"; "budget" := VInt 11 ]} : document) !! key = Some v ->
             doc !! key = Some v)
       /\ (forall key,
             key ∈ factory_keys MovieFactory ->
             ({[ "title" := VStr "Alien"; "budget" := VInt 11 ]} : document) !! key = None ->
             doc !! key = Some (default_value MovieFactory (Counter.drawn "movies" 5) key)).
Proof.
  split.
  - apply (@build_keys_and_overrides Counter.source UserFactory
             {[ "cls" := VStr "admin" ]} 5%N).
    by eexists.
  - apply (@build_keys_and_overrides Counter.source MovieFactory
             {[ "title" := VStr "Alien"; "budget" := VInt 11 ]} 5%N).
    + reflexivity.
    + discriminate.
Defined.

Lemma create_batch_length_witness :
  (exists name,
     (name = "cls" \/ name = "count")
     /\ is_Some (({[ "count" := VInt 5 ]} : document) !! name)
     /\ @create_batch Counter.source ParamOrder.order UserFactory 0
          {[ "count" := VInt 5 ]} 3%N = (Raise (multiple_argument name), 3%N))
  /\ (exists docs r',
        @create_batch Counter.source ParamOrder.order UserFactory 2
          {[ "username" := VStr "ann" ]} 3%N = (Return docs, r')
        /\ Z.of_nat (length docs) = Z.max 0 2
        /\ Forall (has_keys_of UserFactory) docs)
  /\ @create_batch Counter.source ParamOrder.order BaseFactory 2 ∅ 3%N
       = (Raise NotImplementedError, 3%N).
Proof.
  split; [|split].
  - apply (@create_batch_length Counter.source ParamOrder.order UserFactory 0
             {[ "count" := VInt 5 ]} 3%N).
    right. by eexists.
  - apply (@create_batch_length Counter.source ParamOrder.order UserFactory 2
             {[ "username" := VStr "ann" ]} 3%N).
    + reflexivity.
    + reflexivity.
    + discriminate.
  - apply (@create_batch_length Counter.source ParamOrder.order BaseFactory 2 ∅ 3%N).
    + reflexivity.
    + reflexivity.
    + reflexivity.
Defined.

(** ** Provisioning one collection *)

(** Every factory of [factory_map] implements [build]. *)
Lemma factory_map_implemented (collection_name : string) (f : factory) :
  factory_map !! collection_name = Some f -> f <> BaseFactory.
Proof.
  unfold factory_map. intros Hf ->.
  apply lookup_insert_Some in Hf as [[_ ?]|[_ Hf]]; [done|].
  apply lookup_insert_Some in Hf as [[_ ?]|[_ Hf]]; [done|].
  apply lookup_insert_Some in Hf as [[_ ?]|[_ Hf]]; [done|].
  by apply lookup_singleton_Some in Hf as [_ ?].
Qed.

Section ProvisionFacts.
Context `{PymongoOps} `{Randomness} `{KeywordOrder}.

Lemma provision_batches_total (self : MongoDBClient.t) (d : Database)
    (collection_name : string) (f : factory) (mask : bool)
    (healthy : Rng -> World -> Prop) (counts : list Z)
    (docs_created : Z) (r : Rng) (w : World) :
  MongoDBClient.db self = Some d ->
  f <> BaseFactory ->
  (mask && String.eqb collection_name "users" = true ->
   forall r0, email_is_text (built f ∅ r0)) ->
  (forall batch_count r0 w0 docs r1 docs',
      healthy r0 w0 ->
      1 <= batch_count <= batch_size ->
      create_batch f batch_count ∅ r0 = (Return docs, r1) ->
      (if mask && String.eqb collection_name "users"
       then mask_users docs else Return docs) = Return docs' ->
      exists ids w1,
        coll_insert_many d collection_name docs' w0 = (Return ids, w1)
        /\ length ids = length docs'
        /\ healthy r1 w1) ->
  Forall (fun batch_count => 1 <= batch_count <= batch_size) counts ->
  healthy r w ->
  exists r' w',
    provision_batches self collection_name f mask counts docs_created r w
    = (Return (docs_created + Zsum counts), (r', w'))
    /\ healthy r' w'.
Proof.
  intros Hdb Hf Hmask Hins Hcounts. revert docs_created r w.
  induction Hcounts as [|batch_count rest Hpos _ IH]; intros docs_created r w Hw.
  - exists r, w. simpl. by rewrite Z.add_0_r.
  - cbn [provision_batches].
    specialize (Hins batch_count r w).
    unfold create_batch in Hins |- *. rewrite first_bound_empty in Hins |- *.
    destruct (create_n_spec f (Z.to_nat batch_count) ∅ r (lookup_empty _) Hf)
      as (docs & r1 & Hrun & Hlen & Hbuilt).
    rewrite Hrun in Hins |- *.
    assert (exists docs',
              (if mask && String.eqb collection_name "users"
               then mask_users docs else Return docs) = Return docs'
              /\ length docs' = length docs) as (docs' & Hdocs' & Hlen').
    { destruct (mask && String.eqb collection_name "users") eqn:Hm; [|by exists docs].
      destruct (mask_users_spec docs) as (docs' & Hmasked & HF).
      - eapply Forall_impl; [exact Hbuilt|]. intros doc [r0 ->]. by apply Hmask.
      - exists docs'. split; [done|]. symmetry. by eapply Forall2_length. }
    rewrite Hdocs', Hdb.
    destruct (Hins docs r1 docs' Hw Hpos eq_refl Hdocs') as (ids & w1 & -> & Hids & Hw1).
    destruct (IH (docs_created + Z.of_nat (length ids)) r1 w1 Hw1)
      as (r' & w' & -> & Hw').
    exists r', w'. split; [|done]. do 2 f_equal. simpl. lia.
Qed.

(** X25: let the client be connected, the collection have a factory and,
    where users are masked, the generated addresses be strings.  Let
    [healthy] be a property of the random source and the server that holds
    at the start and from which the server accepts each generated (and
    masked) batch of 1 to 100 documents, answers one identifier per document
    and is [healthy] again.  Then the provisioning loop creates exactly
    [volume] documents, none for a volume of zero or less, and ends in a
    [healthy] state. *)
Theorem provision_collection_total (self : MongoDBClient.t) (d : Database)
    (collection_name : string) (f : factory) (mask : bool) (volume : Z)
    (healthy : Rng -> World -> Prop) (r : Rng) (w : World) :
  MongoDBClient.db self = Some d ->
  factory_map !! collection_name = Some f ->
  (mask && String.eqb collection_name "users" = true ->
   forall r0, email_is_text (built f ∅ r0)) ->
  healthy r w ->
  (forall batch_count r0 w0 docs r1 docs',
      healthy r0 w0 ->
      1 <= batch_count <= batch_size ->
      create_batch f batch_count ∅ r0 = (Return docs, r1) ->
      (if mask && String.eqb collection_name "users"
       then mask_users docs else Return docs) = Return docs' ->
      exists ids w1,
        coll_insert_many d collection_name docs' w0 = (Return ids, w1)
        /\ length ids = length docs'
        /\ healthy r1 w1) ->
  exists r' w',
    provision_collection self collection_name f mask volume r w
    = (Return (Z.max 0 volume), (r', w'))
    /\ healthy r' w'.
Proof.
  intros Hdb Hf Hmask Hw Hins. unfold provision_collection.
  destruct (batch_counts_sum_bounds volume) as [Hsum Hbounds].
  destruct (provision_batches_total self d collection_name f mask healthy
              (batch_counts volume) 0 r w) as (r' & w' & Hrun & Hw'); try done.
  - by apply (factory_map_implemented collection_name).
  - exists r', w'. by rewrite Hrun, Hsum.
Qed.

End ProvisionFacts.

(** The counter hands out the identifiers of a batch in order, and the
    addresses it generates are strings. *)
Lemma counter_batch (n : nat) (r r1 : N) (docs : list document) :
  @create_n Counter.source UserFactory n ∅ r = (Return docs, r1) ->
  r1 = (r + N.of_nat n)%N
  /\ length docs = n
  /\ ProvisionSamples.ids_from r docs
  /\ Forall email_is_text docs.
Proof.
  revert r r1 docs. induction n as [|n IH]; intros r r1 docs.
  - intros [= <- <-]. repeat split; [lia|constructor].
  - cbn [create_n].
    rewrite (@create_run Counter.source UserFactory ∅ r (lookup_empty _)) by done.
    destruct (create_n UserFactory n ∅ _) as [[rest|e] r2] eqn:Hrest; [|done].
    intros [= <- <-]. apply IH in Hrest as (-> & Hlen & Hids & Htext).
    assert (forall key, key ∈ factory_keys UserFactory ->
              @built Counter.source UserFactory ∅ r !! key
              = Some (Counter.drawn "users" r key)) as Hkey.
    { intros key Hin. by rewrite (@built_lookup Counter.source), decide_True. }
    split; [simpl; lia|]. split; [simpl; by rewrite Hlen|]. split.
    + split; [|exact Hids]. rewrite Hkey by (simpl; set_solver). reflexivity.
    + constructor; [|done]. intros v. rewrite Hkey by (simpl; set_solver).
      intros [= <-]. by eexists.
Qed.

Lemma masked_ids_from (k : N) (docs docs' : list document) :
  Forall2 masked_user docs docs' ->
  ProvisionSamples.ids_from k docs -> ProvisionSamples.ids_from k docs'.
Proof.
  intros HF. revert k. induction HF as [|doc doc' docs docs' (_ & Hsame & _) _ IH].
  - done.
  - intros k [Hid Hrest]. split; [by rewrite Hsame|by apply IH].
Qed.

Lemma ids_below_fresh (k : N) (stored : list document) :
  ProvisionSamples.ids_below k stored ->
  existsb (MemMongo.matches {[ "_id" := VObjectId k ]}) stored = false.
Proof.
  induction 1 as [|doc stored (j & Hj & Hlt) _ IH]; [done|].
  cbn [existsb]. rewrite IH, orb_false_r.
  unfold MemMongo.matches. rewrite map_to_list_singleton. cbn [forallb fst snd].
  rewrite Hj. cbn [MemMongo.scalar_eqb]. rewrite andb_true_r. apply N.eqb_neq. lia.
Qed.

Lemma ids_below_mono (k k' : N) (docs : list document) :
  (k <= k')%N -> ProvisionSamples.ids_below k docs -> ProvisionSamples.ids_below k' docs.
Proof.
  intros Hle Hbelow. eapply Forall_impl; [exact Hbelow|].
  intros doc (j & Hj & Hlt). exists j. split; [done|lia].
Qed.

Lemma ids_from_below (k : N) (docs : list document) :
  ProvisionSamples.ids_from k docs ->
  ProvisionSamples.ids_below (k + N.of_nat (length docs)) docs.
Proof.
  revert k. induction docs as [|doc docs IH]; intros k; [constructor|].
  intros [Hid Hrest]. constructor.
  - exists k. split; [done|]. simpl. lia.
  - replace (k + N.of_nat (length (doc :: docs)))%N
      with (k + 1 + N.of_nat (length docs))%N by (simpl; lia).
    by apply IH.
Qed.

Lemma ids_from_all (k : N) (docs : list document) :
  ProvisionSamples.ids_from k docs ->
  length (omap (fun doc : document => doc !! "_id") docs) = length docs.
Proof.
  revert k. induction docs as [|doc docs IH]; intros k; [done|].
  intros [Hid Hrest]. cbn [omap list_omap]. rewrite Hid. simpl. f_equal. by eapply IH.
Qed.

(** The in-memory server accepts a batch whose identifiers start where
    those it stores end. *)
Lemma exec_ops_fresh (docs stored : list document) (oid k : N) (acc : BulkWriteResult) :
  ProvisionSamples.ids_below k stored ->
  ProvisionSamples.ids_from k docs ->
  exists result,
    MemMongo.exec_ops (InsertOne ∘ VDict <$> docs) oid stored acc
    = (Return result, (oid, stored ++ docs)).
Proof.
  revert stored k acc. induction docs as [|doc docs IH]; intros stored k acc Hbelow Hfrom.
  - exists acc. simpl. by rewrite app_nil_r.
  - destruct Hfrom as [Hid Hrest].
    cbn [fmap list_fmap MemMongo.exec_ops compose MemMongo.exec_op].
    rewrite Hid, (ids_below_fresh k stored Hbelow).
    destruct (IH (stored ++ [doc]) (k + 1)%N
                (MemMongo.add_counts acc (MemMongo.counts 1 0 0))) as [result Hrun].
    + apply Forall_app. split; [by apply (ids_below_mono k); [lia|]|].
      constructor; [|constructor]. exists k. split; [done|lia].
    + done.
    + exists result. by rewrite <- app_assoc in Hrun.
Qed.

Lemma stored_after (d : Database) (collection : string) (up : bool) (oid : N)
    (colls : gmap string (list document)) (docs : list document) :
  MemMongo.docs_of
    {| MemMongo.server_up := up; MemMongo.next_oid := oid;
       MemMongo.collections := <[MemMongo.namespace d collection := docs]> colls |}
    d collection = docs.
Proof. unfold MemMongo.docs_of. cbn [MemMongo.collections]. by rewrite lookup_insert_eq. Qed.

Lemma insert_many_fresh (d : Database) (collection : string) (docs : list document)
    (k : N) (w : MemMongo.world) :
  MemMongo.server_up w = true ->
  ProvisionSamples.ids_below k (MemMongo.docs_of w d collection) ->
  ProvisionSamples.ids_from k docs ->
  docs <> [] ->
  MemMongoOps.insert_many d collection docs w
  = (Return (omap (fun doc : document => doc !! "_id") docs),
     {| MemMongo.server_up := true;
        MemMongo.next_oid := MemMongo.next_oid w;
        MemMongo.collections :=
          <[MemMongo.namespace d collection := MemMongo.docs_of w d collection ++ docs]>
            (MemMongo.collections w) |}).
Proof.
  intros Hup Hbelow Hfrom Hne.
  destruct (exec_ops_fresh docs (MemMongo.docs_of w d collection)
              (MemMongo.next_oid w) k (MemMongo.counts 0 0 0) Hbelow Hfrom)
    as [result Hexec].
  unfold MemMongoOps.insert_many, MemMongo.bulk. rewrite Hup, Hexec.
  rewrite stored_after, drop_app_length. by destruct docs.
Qed.

Lemma provision_collection_total_witness :
  exists r' w',
    @provision_collection MemMongo.driver MemMongoOps.ops Counter.source ParamOrder.order
      ProvisionSamples.cli "users" UserFactory true 250 7%N ProvisionSamples.server
    = (Return (Z.max 0 250), (r', w'))
    /\ ProvisionSamples.healthy r' w'.
Proof.
  apply (@provision_collection_total MemMongo.driver MemMongoOps.ops Counter.source
           ParamOrder.order ProvisionSamples.cli Samples.testdb "users" UserFactory
           true 250 ProvisionSamples.healthy 7%N ProvisionSamples.server).
  - reflexivity.
  - vm_compute; reflexivity.
  - intros _ r0 v Hv. rewrite (@built_lookup Counter.source) in Hv.
    rewrite decide_True in Hv by (simpl; set_solver).
    injection Hv as <-. by eexists.
  - split; [reflexivity|]. constructor; [|constructor].
    exists 3%N. split; [vm_compute; reflexivity|lia].
  - intros batch_count r0 w0 docs r1 docs' [Hup Hbelow] Hcount Hcreate Hmasked.
    unfold create_batch in Hcreate.
    rewrite (@first_bound_empty ParamOrder.order) in Hcreate.
    apply counter_batch in Hcreate as (-> & Hlen & Hfrom & Htext).
    change (mask_users docs = Return docs') in Hmasked.
    destruct (mask_users_spec docs Htext) as (docs'' & Hrun & HF).
    rewrite Hrun in Hmasked. injection Hmasked as ->.
    pose proof (masked_ids_from r0 docs docs' HF Hfrom) as Hfrom'.
    pose proof (Forall2_length _ _ _ HF) as Hlen'.
    assert (docs' <> []) as Hne.
    { intros ->. simpl in Hlen'. unfold batch_size in Hcount. lia. }
    eexists _, _. split; [|split].
    + exact (insert_many_fresh Samples.testdb "users" docs' r0 w0 Hup Hbelow Hfrom' Hne).
    + by apply (ids_from_all r0).
    + split; [reflexivity|]. unfold ProvisionSamples.ids_below.
      rewrite stored_after. apply Forall_app. split.
      * apply (ids_below_mono r0); [lia|done].
      * rewrite <- Hlen, Hlen'. by apply ids_from_below.
Defined.

(** ** The factory variants *)

Section Variants.
Context `{Randomness} `{KeywordOrder}.

(** X26: without [year] and [cls] among the overrides, a classic movie has
    exactly the keys of a movie and a year from 1900 to 1979, a modern movie
    a year from 2000 to 2024.  A caller that passes [year] itself gets a
    [TypeError] from either, not its year; so does a caller that passes
    [cls], which collides with the class in [MovieFactory.create].  In both
    cases the year has been drawn by then. *)
Theorem movie_variants_year (overrides : document) (r : Rng) :
  (overrides !! "year" = None -> overrides !! "cls" = None ->
   exists doc r' year,
     create_classic_movie overrides r = (Return doc, r')
     /\ has_keys_of MovieFactory doc
     /\ doc !! "year" = Some (VInt year) /\ 1900 <= year <= 1979)
  /\ (overrides !! "year" = None -> overrides !! "cls" = None ->
      exists doc r' year,
        create_modern_movie overrides r = (Return doc, r')
        /\ has_keys_of MovieFactory doc
        /\ doc !! "year" = Some (VInt year) /\ 2000 <= year <= 2024)
  /\ (is_Some (overrides !! "year") ->
      create_classic_movie overrides r
        = (Raise (multiple_values "year"), (random_int 1900 1979 r).2)
      /\ create_modern_movie overrides r
        = (Raise (multiple_values "year"), (random_int 2000 2024 r).2))
  /\ (overrides !! "year" = None -> is_Some (overrides !! "cls") ->
      create_classic_movie overrides r
        = (Raise (multiple_argument "cls"), (random_int 1900 1979 r).2)
      /\ create_modern_movie overrides r
        = (Raise (multiple_argument "cls"), (random_int 2000 2024 r).2)).
Proof.
  split; [|split; [|split]].
  - intros Hov Hcls. unfold create_classic_movie.
    pose proof (random_int_range 1900 1979 r ltac:(lia)) as Hrange.
    destruct (random_int 1900 1979 r) as [year r1]. rewrite Hov.
    rewrite create_run by (by rewrite ?lookup_insert_ne).
    eexists _, _, year. split; [done|]. split; [apply built_has_keys|].
    split; [|exact Hrange].
    rewrite built_lookup, decide_True by (simpl; set_solver).
    by rewrite lookup_insert_eq.
  - intros Hov Hcls. unfold create_modern_movie.
    pose proof (random_int_range 2000 2024 r ltac:(lia)) as Hrange.
    destruct (random_int 2000 2024 r) as [year r1]. rewrite Hov.
    rewrite create_run by (by rewrite ?lookup_insert_ne).
    eexists _, _, year. split; [done|]. split; [apply built_has_keys|].
    split; [|exact Hrange].
    rewrite built_lookup, decide_True by (simpl; set_solver).
    by rewrite lookup_insert_eq.
  - intros [v Hv]. unfold create_classic_movie, create_modern_movie.
    destruct (random_int 1900 1979 r), (random_int 2000 2024 r). by rewrite Hv.
  - intros Hov Hcls. unfold create_classic_movie, create_modern_movie.
    destruct (random_int 1900 1979 r) as [year r1].
    destruct (random_int 2000 2024 r) as [year' r1']. rewrite Hov.
    rewrite !create_cls by (by rewrite lookup_insert_ne). done.
Qed.

Lemma movie_batch_with_genres_n_spec (n : nat) (genres : list string)
    (overrides : document) (r : Rng) :
  overrides !! "genres" = None ->
  overrides !! "cls" = None ->
  exists movies r',
    movie_batch_with_genres_n n genres overrides r = (Return movies, r')
    /\ length movies = n
    /\ Forall (fun movie => has_keys_of MovieFactory movie
                 /\ movie !! "genres" = Some (VList (VStr <$> genres))) movies.
Proof.
  intros Hov Hcls. revert r. induction n as [|n IH]; intros r.
  - by exists [], r.
  - cbn [movie_batch_with_genres_n]. rewrite Hov.
    rewrite create_run by (by rewrite ?lookup_insert_ne).
    destruct (IH (draw_defaults (collection_name MovieFactory) r).2)
      as (movies & r' & -> & Hlen & HF).
    eexists (_ :: movies), r'. split; [done|]. split; [by rewrite <- Hlen|].
    constructor; [|done]. split; [apply built_has_keys|].
    rewrite built_lookup, decide_True by (simpl; set_solver).
    by rewrite lookup_insert_eq.
Qed.

(** X27: [create_movie_batch_with_genres] called with an override named
    [count] or [genres] raises a [TypeError] that names one of the colliding
    keywords, whatever the count, and draws nothing.  With neither, an
    override named [cls] makes the first [MovieFactory.create] raise a
    [TypeError], so that a positive count fails and a count of zero or less
    returns the empty list.  With none of the three, it returns [count]
    movies (none for a count of zero or less), each with exactly the keys of
    a movie and with the given genres. *)
Theorem movie_batch_has_genres (count : Z) (genres : list string)
    (overrides : document) (r : Rng) :
  (is_Some (overrides !! "count") \/ is_Some (overrides !! "genres") ->
   exists name,
     (name = "count" \/ name = "genres")
     /\ is_Some (overrides !! name)
     /\ create_movie_batch_with_genres count genres overrides r
        = (Raise (multiple_argument name), r))
  /\ (overrides !! "count" = None -> overrides !! "genres" = None ->
      is_Some (overrides !! "cls") ->
      create_movie_batch_with_genres count genres overrides r =
        if 0 <? count then (Raise (multiple_argument "cls"), r) else (Return [], r))
  /\ (overrides !! "count" = None -> overrides !! "genres" = None ->
      overrides !! "cls" = None ->
      exists movies r',
        create_movie_batch_with_genres count genres overrides r = (Return movies, r')
        /\ Z.of_nat (length movies) = Z.max 0 count
        /\ Forall (fun movie => has_keys_of MovieFactory movie
                     /\ movie !! "genres" = Some (VList (VStr <$> genres))) movies).
Proof.
  assert (overrides !! "count" = None -> overrides !! "genres" = None ->
          first_bound ["count"; "genres"] overrides = None) as Hfree.
  { intros Hcount Hgenres. apply first_bound_free. intros name Hin.
    apply elem_of_cons in Hin as [->|Hin]; [done|].
    apply elem_of_cons in Hin as [->|Hin]; [done|]. by apply elem_of_nil in Hin. }
  split; [|split].
  - intros Hsome.
    assert (exists name, name ∈ ["count"; "genres"] /\ is_Some (overrides !! name))
      as (name0 & Hin0 & Hsome0).
    { destruct Hsome as [Hs|Hs]; [exists "count"|exists "genres"]; split; try done;
        set_solver. }
    destruct (first_bound_taken _ _ name0 Hin0 Hsome0) as (name & Hfirst & Hin & Hname).
    exists name. split; [set_solver|]. split; [done|].
    unfold create_movie_batch_with_genres. by rewrite Hfirst.
  - intros Hcount Hgenres Hcls. unfold create_movie_batch_with_genres.
    rewrite (Hfree Hcount Hgenres).
    destruct (Z.ltb_spec 0 count) as [Hc|Hc].
    + destruct (Z.to_nat count) as [|n] eqn:Hn; [lia|].
      cbn [movie_batch_with_genres_n]. rewrite Hgenres.
      by rewrite create_cls by (by rewrite lookup_insert_ne).
    + by replace (Z.to_nat count) with 0%nat by lia.
  - intros Hcount Hgenres Hcls. unfold create_movie_batch_with_genres.
    rewrite (Hfree Hcount Hgenres).
    destruct (movie_batch_with_genres_n_spec (Z.to_nat count) genres overrides r
                Hgenres Hcls) as (movies & r' & Hrun & Hlen & HF).
    exists movies, r'. split; [done|]. split; [lia|done].
Qed.

End Variants.

Lemma movie_variants_year_witness :
  (exists doc r' year,
     @create_classic_movie Counter.source {[ "title" := VStr "Alien" ]} 4%N
       = (Return doc, r')
     /\ has_keys_of MovieFactory doc
     /\ doc !! "year" = Some (VInt year) /\ 1900 <= year <= 1979)
  /\ (@create_classic_movie Counter.source {[ "year" := VInt 1999 ]} 4%N
        = (Raise (multiple_values "year"), 5%N)
      /\ @create_modern_movie Counter.source {[ "year" := VInt 1999 ]} 4%N
        = (Raise (multiple_values "year"), 5%N))
  /\ (@create_classic_movie Counter.source {[ "cls" := VNone ]} 4%N
        = (Raise (multiple_argument "cls"), 5%N)
      /\ @create_modern_movie Counter.source {[ "cls" := VNone ]} 4%N
        = (Raise (multiple_argument "cls"), 5%N)).
Proof.
  split; [|split].
  - apply (@movie_variants_year Counter.source {[ "title" := VStr "Alien" ]} 4%N);
      reflexivity.
  - apply (@movie_variants_year Counter.source {[ "year" := VInt 1999 ]} 4%N).
    by eexists.
  - apply (@movie_variants_year Counter.source {[ "cls" := VNone ]} 4%N).
    + reflexivity.
    + by eexists.
Defined.

Lemma movie_batch_has_genres_witness :
  (exists name,
     (name = "count" \/ name = "genres")
     /\ is_Some (({[ "genres" := VList [] ]} : document) !! name)
     /\ @create_movie_batch_with_genres Counter.source ParamOrder.order 0
          ["Drama"] {[ "genres" := VList [] ]} 0%N
        = (Raise (multiple_argument name), 0%N))
  /\ @create_movie_batch_with_genres Counter.source ParamOrder.order 3
       ["Drama"] {[ "cls" := VNone ]} 0%N
     = (Raise (multiple_argument "cls"), 0%N)
  /\ exists movies r',
       @create_movie_batch_with_genres Counter.source ParamOrder.order 3
         ["Drama"; "Crime"] {[ "rated" := VStr "R" ]} 0%N = (Return movies, r')
       /\ Z.of_nat (length movies) = Z.max 0 3
       /\ Forall (fun movie => has_keys_of MovieFactory movie
                    /\ movie !! "genres" = Some (VList (VStr <$> ["Drama"; "Crime"])))
            movies.
Proof.
  split; [|split].
  - apply (@movie_batch_has_genres Counter.source ParamOrder.order 0 ["Drama"]
             {[ "genres" := VList [] ]} 0%N).
    right. by eexists.
  - apply (@movie_batch_has_genres Counter.source ParamOrder.order 3 ["Drama"]
             {[ "cls" := VNone ]} 0%N).
    + reflexivity.
    + reflexivity.
    + by eexists.
  - apply (@movie_batch_has_genres Counter.source ParamOrder.order 3
             ["Drama"; "Crime"] {[ "rated" := VStr "R" ]} 0%N); reflexivity.
Defined.

(** ** The dataset names of the provisioning tool *)

Lemma lstrip_chars (c : ascii) (s : string) :
  contains c (lstrip s) = true -> contains c s = true.
Proof.
  induction s as [|a s IH]; simpl; [done|].
  destruct (is_space a); [|done].
  intros Hc. rewrite contains_cons, (IH Hc). apply orb_true_r.
Qed.

Lemma rstrip_chars (c : ascii) (s : string) :
  contains c (rstrip s) = true -> contains c s = true.
Proof.
  induction s as [|a s IH]; simpl; [done|].
  destruct (rstrip s) as [|b t] eqn:Ht.
  - destruct (is_space a); [done|]. rewrite !contains_cons.
    intros [->|Hc]%orb_true_iff; [done|done].
  - rewrite !contains_cons. intros [->|Hc]%orb_true_iff; [done|].
    rewrite IH; [apply orb_true_r|]. by rewrite contains_cons.
Qed.

Lemma lstrip_first (s : string) (c : ascii) :
  first_char (lstrip s) = Some c -> is_space c = false.
Proof.
  induction s as [|a s IH]; simpl; [done|].
  destruct (is_space a) eqn:Ha; [done|]. by intros [= <-].
Qed.

Lemma rstrip_first (s : string) (c : ascii) :
  first_char (rstrip s) = Some c -> first_char s = Some c.
Proof.
  destruct s as [|a s]; simpl; [done|].
  destruct (rstrip s); [by destruct (is_space a)|done].
Qed.

Lemma rstrip_last (s : string) (c : ascii) :
  last_char (rstrip s) = Some c -> is_space c = false.
Proof.
  induction s as [|a s IH]; simpl; [done|].
  destruct (rstrip s) as [|b t] eqn:Ht.
  - destruct (is_space a) eqn:Ha; [done|]. by intros [= <-].
  - intros Hl. apply IH. exact Hl.
Qed.

Lemma strip_clean (part : string) :
  contains "," part = false -> clean_name (strip part).
Proof.
  intros Hpart. unfold strip. split; [|split].
  - destruct (contains "," (rstrip (lstrip part))) eqn:Hc; [|done].
    apply rstrip_chars, lstrip_chars in Hc. congruence.
  - intros c Hc. by apply rstrip_first, lstrip_first in Hc.
  - intros c Hc. by apply rstrip_last in Hc.
Qed.

(** X28: the dataset names the tool sends are never an empty list (an empty
    option gives the one name ['']), hold no comma and no white space at
    either end; when no volumes are given, each of them, and no other name,
    gets the volume 100. *)
Theorem dataset_names_clean (datasets : string) :
  dataset_list datasets <> []
  /\ Forall clean_name (dataset_list datasets)
  /\ forall d,
       default_volumes (dataset_list datasets) !! d =
         if decide (d ∈ dataset_list datasets) then Some 100 else None.
Proof.
  unfold dataset_list. split; [|split].
  - assert (split "," datasets <> []) as Hne.
    { destruct datasets as [|c s]; simpl; [done|].
      destruct (split "," s); [done|]. by destruct (Ascii.eqb c ","). }
    by destruct (split "," datasets).
  - apply Forall_fmap. eapply Forall_impl; [apply (split_no_sep "," datasets)|].
    intros part Hpart. by apply strip_clean.
  - intros d. unfold default_volumes.
    induction (strip <$> split "," datasets) as [|k names IH].
    + rewrite fmap_nil, list_to_map_nil, lookup_empty.
      case_decide as Hin; [by apply elem_of_nil in Hin|done].
    + rewrite fmap_cons, list_to_map_cons.
      destruct (decide (d = k)) as [->|Hne].
      * rewrite lookup_insert_eq, decide_True; [done|set_solver].
      * rewrite lookup_insert_ne, IH by done.
        repeat case_decide; try done; set_solver.
Qed.
